(** * The inventory ledger of [inventory_system.py]

    A shallow embedding of the [Inventory] class: the stock mapping is an
    insertion-ordered dictionary, the methods are computations in a small
    state-and-exception monad over a world made of the object's [_stock], the
    file system and the records handed to the module logger. *)

From Stdlib Require Import ZArith List String Bool Lia.
From Stdlib Require Import SpecFloat DecimalString.
Import ListNotations.

Local Open Scope string_scope.
Local Open Scope list_scope.
Local Open Scope Z_scope.

(** ** Python values *)

(** Dictionary keys handed to [str()]: the hashable scalars. *)
Inductive pykey : Type :=
| KNone
| KBool (b : bool)
| KInt (z : Z)
| KStr (s : string).

(** The values [json.load] produces, which are also the arguments the
    methods are called with.  A float is an IEEE value: signed zero, signed
    infinity, NaN, or [(-1)^s * m * 2^e]. *)
#[warnings="-register-all"]
Inductive pyval : Type :=
| PNone
| PBool (b : bool)
| PInt (z : Z)
| PFloat (f : spec_float)
| PStr (s : string)
| PList (l : list pyval)
| PDict (items : list (pykey * pyval)).

(** The exception classes the module raises, catches or lets through. *)
Inductive exn : Type :=
| TypeError
| ValueError
| KeyError
| OverflowError
| FileNotFoundError
| JSONDecodeError
| OSError.

Definition exn_eqb (a b : exn) : bool :=
  match a, b with
  | TypeError, TypeError | ValueError, ValueError | KeyError, KeyError
  | OverflowError, OverflowError | FileNotFoundError, FileNotFoundError
  | JSONDecodeError, JSONDecodeError | OSError, OSError => true
  | _, _ => false
  end.

(** [subclass e c]: an exception of class [e] is caught by [except c].
    [json.JSONDecodeError] derives from [ValueError], [FileNotFoundError]
    from [OSError]; [OverflowError] derives from [ArithmeticError] only. *)
Definition subclass (e c : exn) : bool :=
  match e, c with
  | JSONDecodeError, ValueError => true
  | FileNotFoundError, OSError => true
  | _, _ => exn_eqb e c
  end.

Inductive result (A : Type) : Type :=
| Ok (a : A)
| Raise (e : exn).
Arguments Ok {A} a.
Arguments Raise {A} e.

(** [isinstance(v, int)], with the integer the value stands for: [bool] is
    a subclass of [int], [True] is 1 and [False] is 0. *)
Definition as_int (v : pyval) : option Z :=
  match v with
  | PInt z => Some z
  | PBool b => Some (if b then 1 else 0)
  | _ => None
  end.

(** [int(f)] on a float: truncation toward zero of a finite value,
    [ValueError] on NaN, [OverflowError] on an infinity. *)
Definition int_of_float (f : spec_float) : result Z :=
  match f with
  | S754_zero _ => Ok 0
  | S754_infinity _ => Raise OverflowError
  | S754_nan => Raise ValueError
  | S754_finite s m e =>
      let magnitude := Z.shiftl (Z.pos m) e in
      Ok (if s then - magnitude else magnitude)
  end.

(** [str(k)] on a key. *)
Definition py_str (k : pykey) : string :=
  match k with
  | KNone => "None"
  | KBool true => "True"
  | KBool false => "False"
  | KInt z => NilZero.string_of_int (Z.to_int z)
  | KStr s => s
  end.

(** A reading of decimal literals, used where a concrete [int()] on strings
    is needed to run an example. *)
Definition ascii_decimal (s : string) : option Z :=
  option_map Z.of_int (NilZero.int_of_string s).

(** ** The insertion-ordered dictionary [Dict[str, int]] *)

Definition dict : Type := list (string * Z).

(** [d[k]], [None] standing for the missing key. *)
Fixpoint dict_get (d : dict) (k : string) : option Z :=
  match d with
  | [] => None
  | (k', v) :: rest => if String.eqb k' k then Some v else dict_get rest k
  end.

(** [d.get(k, default)] *)
Definition dict_get_default (d : dict) (k : string) (default : Z) : Z :=
  match dict_get d k with
  | Some v => v
  | None => default
  end.

(** [k in d] *)
Definition dict_contains (d : dict) (k : string) : bool :=
  match dict_get d k with
  | Some _ => true
  | None => false
  end.

(** [d[k] = v]: an existing key keeps its place, a new one goes last. *)
Fixpoint dict_setitem (d : dict) (k : string) (v : Z) : dict :=
  match d with
  | [] => [(k, v)]
  | (k', v') :: rest =>
      if String.eqb k' k then (k', v) :: rest
      else (k', v') :: dict_setitem rest k v
  end.

(** [del d[k]] *)
Fixpoint dict_delitem (d : dict) (k : string) : dict :=
  match d with
  | [] => []
  | (k', v') :: rest =>
      if String.eqb k' k then dict_delitem rest k
      else (k', v') :: dict_delitem rest k
  end.

Definition dict_keys (d : dict) : list string := map fst d.

(** A Python dictionary holds a key once. *)
Fixpoint unique_keys (d : dict) : bool :=
  match d with
  | [] => true
  | (k, _) :: rest => negb (dict_contains rest k) && unique_keys rest
  end.

(** ** The world: object, files, log *)

Inductive level : Type := INFO | WARNING | ERROR.

(** A call to the logger: its severity and its format string (the
    arguments, a timestamp among them, are left out). *)
Record log_record : Type := LogRecord { levelname : level; msg : string }.

(** What a file holds, as [json.load] sees it: text that does not parse, or
    the document it parses to. *)
Inductive contents : Type :=
| Malformed
| Document (v : pyval).

Record world : Type := World {
  _stock : dict;
  files : string -> option contents;
  writable : string -> bool;
  log : list log_record
}.

(** ** State and exceptions *)

Definition M (A : Type) : Type := world -> result A * world.

Definition ret {A} (a : A) : M A := fun w => (Ok a, w).

Definition raise {A} (e : exn) : M A := fun w => (Raise e, w).

Definition bind {A B} (c : M A) (k : A -> M B) : M B :=
  fun w =>
    match c w with
    | (Ok a, w') => k a w'
    | (Raise e, w') => (Raise e, w')
    end.

Declare Scope py_scope.
Delimit Scope py_scope with py.
Notation "x <- c ;; k" := (bind c (fun x => k))
  (at level 61, c at next level, right associativity) : py_scope.
Notation "c ;; k" := (bind c (fun _ => k))
  (at level 61, right associativity) : py_scope.
Local Open Scope py_scope.

(** [try: body except ...: handler]: [handlers e] is the body of the first
    [except] clause that matches [e], if any. *)
Definition try_except {A} (body : M A) (handlers : exn -> option (M A)) : M A :=
  fun w =>
    match body w with
    | (Ok a, w') => (Ok a, w')
    | (Raise e, w') =>
        match handlers e with
        | Some handler => handler w'
        | None => (Raise e, w')
        end
    end.

Definition get_stock : M dict := fun w => (Ok (_stock w), w).

Definition set_stock (d : dict) : M unit :=
  fun w => (Ok tt, World d (files w) (writable w) (log w)).

Definition emit (l : level) (m : string) : M unit :=
  fun w => (Ok tt, World (_stock w) (files w) (writable w)
                         (log w ++ [LogRecord l m])).

Definition logger_info := emit INFO.
Definition logger_warning := emit WARNING.
Definition logger_error := emit ERROR.
(** [logger.exception] logs with severity ERROR. *)
Definition logger_exception := emit ERROR.

(** [open(path, "r")] followed by reading the file. *)
Definition open_read (path : string) : M contents :=
  fun w =>
    match files w path with
    | Some c => (Ok c, w)
    | None => (Raise FileNotFoundError, w)
    end.

(** [json.load(f)] *)
Definition json_load (c : contents) : M pyval :=
  match c with
  | Malformed => raise JSONDecodeError
  | Document v => ret v
  end.

(** [json.dump(d, f)] of a [Dict[str, int]]: the object with the same keys
    in the same order. *)
Definition json_dump (d : dict) : pyval :=
  PDict (map (fun kv => (KStr (fst kv), PInt (snd kv))) d).

(** [open(path, "w")] followed by writing the document. *)
Definition open_write (path : string) (doc : pyval) : M unit :=
  fun w =>
    if writable w path then
      (Ok tt, World (_stock w)
                    (fun p => if String.eqb p path then Some (Document doc)
                              else files w p)
                    (writable w) (log w))
    else (Raise OSError, w).

(** ** The class [Inventory] *)

Section Inventory.

(** [int(s)] on a string: the integer it denotes, or [None] where Python
    raises [ValueError].  The methods are modelled for any such reading. *)
Variable int_of_str : string -> option Z.

(** [int(v)] *)
Definition py_int (v : pyval) : result Z :=
  match v with
  | PNone => Raise TypeError
  | PBool b => Ok (if b then 1 else 0)
  | PInt z => Ok z
  | PFloat f => int_of_float f
  | PStr s =>
      match int_of_str s with
      | Some z => Ok z
      | None => Raise ValueError
      end
  | PList _ => Raise TypeError
  | PDict _ => Raise TypeError
  end.

(** The loop of the constructor:
    [for k, v in initial.items(): self._stock[str(k)] = int(v)]. *)
Fixpoint init_loop (items : list (pykey * pyval)) : M unit :=
  match items with
  | [] => ret tt
  | (k, v) :: rest =>
      match py_int v with
      | Ok z =>
          d <- get_stock ;;
          set_stock (dict_setitem d (py_str k) z) ;;
          init_loop rest
      | Raise e => raise e
      end
  end.

(** [Inventory(initial)]; [initial] is [None] or a dictionary, and an empty
    dictionary is falsy. *)
Definition __init__ (initial : option (list (pykey * pyval))) : M unit :=
  set_stock [] ;;
  match initial with
  | None => ret tt
  | Some [] => ret tt
  | Some items => init_loop items
  end.

Definition add_item (item qty : pyval) : M unit :=
  match item with
  | PStr name =>
      match as_int qty with
      | None => raise TypeError
      | Some q =>
          if q <? 0 then raise ValueError
          else
            d <- get_stock ;;
            let current := dict_get_default d name 0 in
            set_stock (dict_setitem d name (current + q)) ;;
            logger_info "%s: Added %d of %s"
      end
  | _ => raise TypeError
  end.

Definition remove_item (item qty : pyval) : M unit :=
  match item with
  | PStr name =>
      match as_int qty with
      | None => raise TypeError
      | Some q =>
          if q <? 0 then raise ValueError
          else
            d <- get_stock ;;
            match dict_get d name with
            | None =>
                logger_warning "Attempt to remove non-existent item: %s" ;;
                raise KeyError
            | Some current =>
                if current <=? q then
                  set_stock (dict_delitem d name) ;;
                  logger_info "%s: Removed %d of %s (item deleted)"
                else
                  set_stock (dict_setitem d name (current - q)) ;;
                  logger_info "%s: Removed %d of %s"
            end
      end
  | _ => raise TypeError
  end.

Definition get_qty (item : pyval) : M Z :=
  match item with
  | PStr name =>
      d <- get_stock ;;
      ret (dict_get_default d name 0)
  | _ => raise TypeError
  end.

(** [[name for name, qty in items if qty < threshold]] *)
Fixpoint names_below (threshold : Z) (items : list (string * Z)) : list string :=
  match items with
  | [] => []
  | (name, qty) :: rest =>
      if qty <? threshold then name :: names_below threshold rest
      else names_below threshold rest
  end.

Definition check_low_items (threshold : pyval) : M (list string) :=
  match as_int threshold with
  | None => raise TypeError
  | Some t =>
      d <- get_stock ;;
      ret (names_below t d)
  end.

Fixpoint report_lines (items : list (string * Z)) : M unit :=
  match items with
  | [] => ret tt
  | _ :: rest => logger_info "%s -> %d" ;; report_lines rest
  end.

Definition print_report : M unit :=
  logger_info "Items Report" ;;
  d <- get_stock ;;
  report_lines d.

Definition save_data (file_path : string) : M unit :=
  try_except
    (d <- get_stock ;;
     open_write file_path (json_dump d) ;;
     logger_info "Inventory saved to %s")
    (fun e =>
       if subclass e OSError then
         Some (logger_exception "Failed to write inventory to %s" ;; raise e)
       else None).

(** [{str(k): int(v) for k, v in data.items()}], built entry by entry. *)
Fixpoint coerce_items (items : list (pykey * pyval)) (acc : dict) : result dict :=
  match items with
  | [] => Ok acc
  | (k, v) :: rest =>
      match py_int v with
      | Ok z => coerce_items rest (dict_setitem acc (py_str k) z)
      | Raise e => Raise e
      end
  end.

Definition load_data (file_path : string) : M unit :=
  try_except
    (c <- open_read file_path ;;
     data <- json_load c ;;
     match data with
     | PDict items =>
         match coerce_items items [] with
         | Ok new_stock =>
             set_stock new_stock ;;
             logger_info "Inventory loaded from %s"
         | Raise e => raise e
         end
     | _ => logger_error "Inventory file format invalid: expected dict"
     end)
    (fun e =>
       if subclass e FileNotFoundError then
         Some (logger_info "No inventory file found at %s; starting fresh")
       else if subclass e JSONDecodeError then
         Some (logger_exception "Invalid JSON in inventory file %s")
       else if subclass e TypeError || subclass e ValueError then
         Some (logger_exception "Inventory file %s contains invalid values")
       else None).

(** The read accessor [stock]: a copy of the mapping. *)
Definition stock : M dict := get_stock.

(** ** Callers *)

(** The calls that change, write or replace the mapping. *)
Inductive call : Type :=
| Add_item (item qty : pyval)
| Remove_item (item qty : pyval)
| Load_data (file_path : string)
| Save_data (file_path : string).

Definition perform (c : call) : M unit :=
  match c with
  | Add_item item qty => add_item item qty
  | Remove_item item qty => remove_item item qty
  | Load_data file_path => load_data file_path
  | Save_data file_path => save_data file_path
  end.

(** A caller that makes the calls one after the other and carries on after
    an exception. *)
Fixpoint session (cs : list call) (w : world) : world :=
  match cs with
  | [] => w
  | c :: rest => session rest (snd (perform c w))
  end.

(** Calls with a string item and an integer quantity. *)
Inductive move : Type :=
| Added (item : string) (q : Z)
| Removed (item : string) (q : Z).

Definition perform_move (m : move) : M unit :=
  match m with
  | Added item q => add_item (PStr item) (PInt q)
  | Removed item q => remove_item (PStr item) (PInt q)
  end.

(** The moves in sequence, up to the first one that raises. *)
Fixpoint play (ms : list move) : M unit :=
  match ms with
  | [] => ret tt
  | m :: rest => perform_move m ;; play rest
  end.

(** ** Vocabulary of the properties *)

Definition is_str (v : pyval) : bool :=
  match v with
  | PStr _ => true
  | _ => false
  end.

(** Every stored quantity is strictly positive. *)
Definition positive_stock (d : dict) : bool :=
  forallb (fun kv => 0 <? snd kv) d.

(** A value that [int()] takes to a strictly positive integer, or rejects. *)
Definition positive_value (v : pyval) : bool :=
  match py_int v with
  | Ok z => 0 <? z
  | Raise _ => true
  end.

Definition positive_items (items : list (pykey * pyval)) : bool :=
  forallb (fun kv => positive_value (snd kv)) items.

Definition positive_initial (initial : option (list (pykey * pyval))) : bool :=
  match initial with
  | None => true
  | Some items => positive_items items
  end.

(** A call that brings no quantity 0 or below into the mapping: an [Add_item] of
    a quantity other than 0, a [Load_data] of a file whose values are positive. *)
Definition positive_call (c : call) (w : world) : bool :=
  match c with
  | Add_item _ qty =>
      match as_int qty with
      | Some q => negb (q =? 0)
      | None => true
      end
  | Load_data file_path =>
      match files w file_path with
      | Some (Document (PDict items)) => positive_items items
      | _ => true
      end
  | Remove_item _ _ => true
  | Save_data _ => true
  end.

Fixpoint positive_session (cs : list call) (w : world) : bool :=
  match cs with
  | [] => true
  | c :: rest => positive_call c w && positive_session rest (snd (perform c w))
  end.

(** Sum of the quantities added for [item]. *)
Fixpoint total_added (item : string) (ms : list move) : Z :=
  match ms with
  | [] => 0
  | Added i q :: rest =>
      (if String.eqb i item then q else 0) + total_added item rest
  | Removed _ _ :: rest => total_added item rest
  end.

(** Sum of the quantities removed for [item]. *)
Fixpoint total_removed (item : string) (ms : list move) : Z :=
  match ms with
  | [] => 0
  | Added _ _ :: rest => total_removed item rest
  | Removed i q :: rest =>
      (if String.eqb i item then q else 0) + total_removed item rest
  end.

(** The balance of [item] kept move by move from [b]: an addition adds, a
    removal subtracts and stops at 0. *)
Fixpoint running_balance (item : string) (ms : list move) (b : Z) : Z :=
  match ms with
  | [] => b
  | Added i q :: rest =>
      running_balance item rest (if String.eqb i item then b + q else b)
  | Removed i q :: rest =>
      running_balance item rest
        (if String.eqb i item then Z.max 0 (b - q) else b)
  end.

(** No removal of [item] asks for more than the balance then held. *)
Fixpoint never_overdrawn (item : string) (ms : list move) (b : Z) : bool :=
  match ms with
  | [] => true
  | Added i q :: rest =>
      never_overdrawn item rest (if String.eqb i item then b + q else b)
  | Removed i q :: rest =>
      if String.eqb i item then (q <=? b) && never_overdrawn item rest (b - q)
      else never_overdrawn item rest b
  end.

Fixpoint never_added (item : string) (ms : list move) : bool :=
  match ms with
  | [] => true
  | Added i _ :: rest => negb (String.eqb i item) && never_added item rest
  | Removed _ _ :: rest => never_added item rest
  end.

(** The value of a float as a rational [n / d], rounded toward zero. *)
Definition truncate_float (f : spec_float) : Z :=
  match f with
  | S754_finite s m e =>
      let n := if s then Z.neg m else Z.pos m in
      if 0 <=? e then n * 2 ^ e else Z.quot n (2 ^ (- e))
  | _ => 0
  end.

Definition is_finite_float (f : spec_float) : bool :=
  match f with
  | S754_zero _ => true
  | S754_finite _ _ _ => true
  | _ => false
  end.

Definition float_or_bool (v : pyval) : bool :=
  match v with
  | PBool _ => true
  | PFloat _ => true
  | _ => false
  end.

Definition finite_float_or_bool (v : pyval) : bool :=
  match v with
  | PBool _ => true
  | PFloat f => is_finite_float f
  | _ => false
  end.

(** The integer a boolean or a finite float stands for after rounding
    toward zero. *)
Definition rounded (v : pyval) : Z :=
  match v with
  | PBool true => 1
  | PFloat f => truncate_float f
  | _ => 0
  end.

(** The mapping with key [str(k)] bound to [rounded v] for each item, later
    items overriding earlier ones. *)
Definition rounded_mapping (items : list (pykey * pyval)) : dict :=
  fold_left (fun acc kv => dict_setitem acc (py_str (fst kv)) (rounded (snd kv)))
            items [].

(** ** Worlds of the examples *)

Definition no_files : string -> option contents := fun _ => None.

Definition any_path : string -> bool := fun _ => true.

Definition fresh_world : world := World [] no_files any_path [].

Definition fruit_world : world :=
  World [("apple", 3); ("banana", 10); ("pear", 5)] no_files any_path [].

(** One file, [inventory.json], holding [doc]. *)
Definition one_file (doc : contents) : string -> option contents :=
  fun p => if String.eqb p "inventory.json" then Some doc else None.

(** 3.9, the double [0x1.f333333333333p+1]. *)
Definition float_3_9 : spec_float := S754_finite false 8782019273372467 (-51).

(** A ledger holding pear 5 next to an [inventory.json] that reads
    [{"apple": 1e999}]: the literal is beyond the doubles and [json.load]
    gives the float infinity. *)
Definition overflow_world : world :=
  World [("pear", 5)]
        (one_file (Document (PDict [(KStr "apple", PFloat (S754_infinity false))])))
        any_path [].

(** The same ledger next to an [inventory.json] that reads
    [{"apple": 3.9, "kiwi": true}]. *)
Definition float_world : world :=
  World [("pear", 5)]
        (one_file (Document (PDict [(KStr "apple", PFloat float_3_9);
                                    (KStr "kiwi", PBool true)])))
        any_path [].

(** An initial mapping and a run of calls that keep quantities positive. *)
Definition demo_initial : option (list (pykey * pyval)) :=
  Some [(KStr "apple", PInt 4)].

Definition demo_calls : list call :=
  [Add_item (PStr "apple") (PInt 10);
   Remove_item (PStr "apple") (PInt 3);
   Add_item (PStr "banana") (PInt 2);
   Save_data "inventory.json";
   Remove_item (PStr "banana") (PInt 2);
   Load_data "inventory.json"].

(** The scenario of the documentation: ten apples in, three out. *)
Definition demo_moves : list move := [Added "apple" 10; Removed "apple" 3].

(** The same ledger next to an [inventory.json] that reads
    [{"apple": NaN}], which [json.load] accepts. *)
Definition nan_world : world :=
  World [("pear", 5)]
        (one_file (Document (PDict [(KStr "apple", PFloat S754_nan)])))
        any_path [].

(** ** The entry point *)

(** [configure_logging] attaches a handler to the module logger and sets
    its level; it hands no record to the logger. *)
Definition configure_logging : M unit := ret tt.

(** [main]; [except Exception] matches every exception class. *)
Definition main : M unit :=
  configure_logging ;;
  __init__ None ;;
  add_item (PStr "apple") (PInt 10) ;;
  remove_item (PStr "apple") (PInt 3) ;;
  try_except (add_item (PStr "banana") (PInt 2))
             (fun _ => Some (logger_exception "Failed to add banana")) ;;
  apple <- get_qty (PStr "apple") ;;
  logger_info "Apple stock: %d" ;;
  low <- check_low_items (PInt 5) ;;
  logger_info "Low items: %s" ;;
  save_data "inventory.json" ;;
  load_data "inventory.json" ;;
  print_report.

(** ** Further vocabulary *)

(** No stored quantity is negative. *)
Definition nonnegative_stock (d : dict) : bool :=
  forallb (fun kv => 0 <=? snd kv) d.

Definition is_load (c : call) : bool :=
  match c with
  | Load_data _ => true
  | _ => false
  end.

(** [c] is a [save_data] to [path]. *)
Definition saves_to (path : string) (c : call) : bool :=
  match c with
  | Save_data p => String.eqb p path
  | _ => false
  end.

(** The value of the last item whose key reads [k] under [str()]. *)
Fixpoint last_binding (items : list (pykey * pyval)) (k : string) : option pyval :=
  match items with
  | [] => None
  | (k', v) :: rest =>
      match last_binding rest k with
      | Some v' => Some v'
      | None => if String.eqb (py_str k') k then Some v else None
      end
  end.

(** The records of [main] when everything goes through. *)
Definition main_records : list log_record :=
  [LogRecord INFO "%s: Added %d of %s";
   LogRecord INFO "%s: Removed %d of %s";
   LogRecord INFO "%s: Added %d of %s";
   LogRecord INFO "Apple stock: %d";
   LogRecord INFO "Low items: %s";
   LogRecord INFO "Inventory saved to %s";
   LogRecord INFO "Inventory loaded from %s";
   LogRecord INFO "Items Report";
   LogRecord INFO "%s -> %d";
   LogRecord INFO "%s -> %d"].

(** A world where nothing can be written. *)
Definition read_only_world : world :=
  World [("apple", 3)] no_files (fun _ => false) [].

(** A ledger next to an [inventory.json] that reads [[1, 2]]. *)
Definition list_world : world :=
  World [("pear", 5)] (one_file (Document (PList [PInt 1; PInt 2]))) any_path [].

(** An initial mapping with the keys [1] and ["1"]. *)
Definition clashing_items : list (pykey * pyval) :=
  [(KInt 1, PInt 5); (KStr "kiwi", PBool true); (KStr "1", PInt 6)].

(** ** Dictionary lemmas *)

Lemma dict_get_setitem_same (d : dict) (k : string) (v : Z) :
  dict_get (dict_setitem d k v) k = Some v.
Proof.
  induction d as [|[k' v'] rest IH]; simpl.
  - now rewrite String.eqb_refl.
  - destruct (String.eqb k' k) eqn:E; simpl; rewrite E; auto.
Qed.

Lemma dict_get_setitem_other (d : dict) (k k' : string) (v : Z) :
  k' <> k -> dict_get (dict_setitem d k v) k' = dict_get d k'.
Proof.
  intros Hne. induction d as [|[k0 v0] rest IH]; simpl.
  - destruct (String.eqb_spec k k'); congruence.
  - destruct (String.eqb_spec k0 k) as [->|Hk]; simpl.
    + destruct (String.eqb_spec k k'); congruence.
    + destruct (String.eqb k0 k'); auto.
Qed.

Lemma dict_get_delitem_same (d : dict) (k : string) :
  dict_get (dict_delitem d k) k = None.
Proof.
  induction d as [|[k' v'] rest IH]; simpl; auto.
  destruct (String.eqb k' k) eqn:E; simpl; auto. now rewrite E.
Qed.

Lemma dict_get_delitem_other (d : dict) (k k' : string) :
  k' <> k -> dict_get (dict_delitem d k) k' = dict_get d k'.
Proof.
  intros Hne. induction d as [|[k0 v0] rest IH]; simpl; auto.
  destruct (String.eqb_spec k0 k) as [->|Hk]; simpl.
  - destruct (String.eqb_spec k k'); congruence.
  - destruct (String.eqb k0 k'); auto.
Qed.

Lemma dict_get_In (d : dict) (k : string) (v : Z) :
  dict_get d k = Some v -> In (k, v) d.
Proof.
  induction d as [|[k' v'] rest IH]; simpl; [discriminate|].
  destruct (String.eqb_spec k' k) as [->|Hk]; intros H.
  - left. congruence.
  - right. auto.
Qed.

Lemma dict_contains_In (d : dict) (k : string) (v : Z) :
  In (k, v) d -> dict_contains d k = true.
Proof.
  unfold dict_contains.
  induction d as [|[k' v'] rest IH]; simpl; [intros []|].
  intros [H|H].
  - injection H as -> ->. now rewrite String.eqb_refl.
  - destruct (String.eqb k' k); auto.
Qed.

Lemma unique_keys_In_get (d : dict) (k : string) (v : Z) :
  unique_keys d = true -> In (k, v) d -> dict_get d k = Some v.
Proof.
  induction d as [|[k' v'] rest IH]; simpl; [intros _ []|].
  intros Hu [H|H]; apply andb_true_iff in Hu as [Hfresh Hu].
  - injection H as -> ->. now rewrite String.eqb_refl.
  - destruct (String.eqb_spec k' k) as [->|Hk]; auto.
    apply dict_contains_In in H. rewrite H in Hfresh. discriminate.
Qed.

Lemma dict_setitem_fresh (d : dict) (k : string) (v : Z) :
  dict_contains d k = false -> dict_setitem d k v = d ++ [(k, v)].
Proof.
  unfold dict_contains.
  induction d as [|[k' v'] rest IH]; simpl; auto.
  destruct (String.eqb k' k); [discriminate|].
  intros H. now rewrite IH.
Qed.

Lemma dict_contains_app (d1 d2 : dict) (k : string) :
  dict_contains (d1 ++ d2) k = dict_contains d1 k || dict_contains d2 k.
Proof.
  unfold dict_contains.
  induction d1 as [|[k' v'] rest IH]; simpl; auto.
  destruct (String.eqb k' k); auto.
Qed.

Lemma unique_keys_middle (d1 d2 : dict) (k : string) (v : Z) :
  unique_keys (d1 ++ (k, v) :: d2) = true ->
  dict_contains d1 k = false /\ unique_keys ((d1 ++ [(k, v)]) ++ d2) = true.
Proof.
  rewrite <- app_assoc. simpl. intros H. split; auto.
  induction d1 as [|[k' v'] rest IH]; simpl in *; auto.
  apply andb_true_iff in H as [Hfresh Hu].
  unfold dict_contains; simpl.
  destruct (String.eqb_spec k' k) as [->|Hk]; [|now apply IH].
  rewrite dict_contains_app in Hfresh.
  unfold dict_contains at 2 in Hfresh. simpl in Hfresh.
  rewrite String.eqb_refl, orb_true_r in Hfresh. discriminate.
Qed.

Lemma positive_stock_get (d : dict) (k : string) (v : Z) :
  positive_stock d = true -> dict_get d k = Some v -> 0 < v.
Proof.
  unfold positive_stock. intros Hp Hg. apply dict_get_In in Hg.
  rewrite forallb_forall in Hp. apply Hp in Hg. simpl in Hg. lia.
Qed.

Lemma positive_stock_setitem (d : dict) (k : string) (v : Z) :
  positive_stock d = true -> 0 < v -> positive_stock (dict_setitem d k v) = true.
Proof.
  unfold positive_stock. intros Hp Hv.
  induction d as [|[k' v'] rest IH]; simpl in *.
  - apply andb_true_iff. split; [lia|reflexivity].
  - apply andb_true_iff in Hp as [H1 H2].
    destruct (String.eqb k' k); simpl; apply andb_true_iff; split; auto; lia.
Qed.

Lemma positive_stock_delitem (d : dict) (k : string) :
  positive_stock d = true -> positive_stock (dict_delitem d k) = true.
Proof.
  unfold positive_stock.
  induction d as [|[k' v'] rest IH]; simpl; auto.
  intros Hp. apply andb_true_iff in Hp as [H1 H2].
  destruct (String.eqb k' k); simpl; auto.
  apply andb_true_iff. auto.
Qed.

(** ** The methods, one by one *)

Ltac run_method :=
  cbv [add_item remove_item get_qty check_low_items bind ret raise
       get_stock set_stock logger_info logger_warning logger_error
       logger_exception emit]; cbn [_stock files writable log fst snd].

(** C9: [add_item] raises exactly when the item is not a string, the
    quantity is not an integer or the quantity is negative, and then it
    raises [TypeError] or [ValueError] and changes nothing; when it returns,
    the mapping is the old one with [item] bound to its old quantity (0 if
    absent) plus [qty], every other entry and the files left as they were. *)
Theorem add_item_contract (w : world) (item qty : pyval) :
  ((exists e w', add_item item qty w = (Raise e, w'))
   <-> (is_str item = false \/ as_int qty = None
        \/ exists q, as_int qty = Some q /\ q < 0))
  /\ (forall e w', add_item item qty w = (Raise e, w') ->
       (e = TypeError \/ e = ValueError) /\ w' = w)
  /\ (forall w', add_item item qty w = (Ok tt, w') ->
       exists name q,
         item = PStr name /\ as_int qty = Some q /\ 0 <= q
         /\ _stock w' =
            dict_setitem (_stock w) name (dict_get_default (_stock w) name 0 + q)
         /\ dict_get (_stock w') name =
            Some (dict_get_default (_stock w) name 0 + q)
         /\ (forall k, k <> name -> dict_get (_stock w') k = dict_get (_stock w) k)
         /\ files w' = files w).
Proof.
  destruct item as [| | | |name| |];
    try (run_method; split; [split; [intros _; now left | intros _; eauto]|];
         split; [intros e w' H; inversion H; auto | intros w' H; discriminate]).
  destruct (as_int qty) as [q|] eqn:Hq.
  - destruct (Z.ltb_spec q 0) as [Hneg|Hpos].
    + assert (Hrun : add_item (PStr name) qty w = (Raise ValueError, w)).
      { run_method. rewrite Hq. apply Z.ltb_lt in Hneg. now rewrite Hneg. }
      rewrite Hrun. split; [split; [intros _; right; right; eauto | eauto]|].
      split; [intros e w' H; inversion H; auto | intros w' H; discriminate].
    + assert (Hrun : add_item (PStr name) qty w =
                     (Ok tt, World (dict_setitem (_stock w) name
                                      (dict_get_default (_stock w) name 0 + q))
                                   (files w) (writable w)
                                   (log w ++ [LogRecord INFO "%s: Added %d of %s"]))).
      { run_method. rewrite Hq. apply Z.ltb_ge in Hpos. now rewrite Hpos. }
      rewrite Hrun. split; [split|split].
      * intros (e & w' & H). discriminate.
      * intros [H|[H|(q' & H & Hlt)]]; try discriminate.
        inversion H; subst. lia.
      * intros e w' H. discriminate.
      * intros w' H. inversion H; subst; clear H. exists name, q. cbn.
        repeat split; auto.
        -- apply dict_get_setitem_same.
        -- intros k Hk. now apply dict_get_setitem_other.
  - assert (Hrun : add_item (PStr name) qty w = (Raise TypeError, w)).
    { run_method. now rewrite Hq. }
    rewrite Hrun. split; [split; [intros _; right; left; auto | eauto]|].
    split; [intros e w' H; inversion H; auto | intros w' H; discriminate].
Qed.

(** C5: on an item present with quantity [c] and an integer [qty >= 0],
    [remove_item] returns; when [c <= qty] the entry is deleted, so the item
    is absent and [get_qty] gives 0; otherwise the entry is set to
    [c - qty], which is positive. *)
Theorem remove_item_present (w : world) (item : string) (c qty : Z) :
  dict_get (_stock w) item = Some c ->
  0 <= qty ->
  exists w',
    remove_item (PStr item) (PInt qty) w = (Ok tt, w')
    /\ (c <= qty ->
        _stock w' = dict_delitem (_stock w) item
        /\ dict_contains (_stock w') item = false
        /\ get_qty (PStr item) w' = (Ok 0, w'))
    /\ (qty < c ->
        _stock w' = dict_setitem (_stock w) item (c - qty)
        /\ dict_get (_stock w') item = Some (c - qty)
        /\ get_qty (PStr item) w' = (Ok (c - qty), w')
        /\ 0 < c - qty).
Proof.
  intros Hc Hq. run_method. cbn [as_int].
  apply Z.ltb_ge in Hq. rewrite Hq, Hc.
  destruct (Z.leb_spec c qty) as [Hle|Hgt]; eexists; (split; [reflexivity|]);
    cbn [_stock]; unfold dict_get_default, dict_contains.
  - split; [|lia]. intros _.
    rewrite dict_get_delitem_same. auto.
  - split; [lia|]. intros _.
    rewrite dict_get_setitem_same. repeat split; auto. lia.
Qed.

(** C6: on a string item absent from the mapping and an integer
    [qty >= 0], [remove_item] raises [KeyError] after one WARNING record,
    and the mapping and the files are the ones before the call. *)
Theorem remove_item_absent (w : world) (item : string) (qty : pyval) (q : Z) :
  dict_contains (_stock w) item = false ->
  as_int qty = Some q ->
  0 <= q ->
  remove_item (PStr item) qty w =
    (Raise KeyError,
     World (_stock w) (files w) (writable w)
           (log w ++ [LogRecord WARNING "Attempt to remove non-existent item: %s"])).
Proof.
  unfold dict_contains. intros Habs Hq Hpos. run_method.
  rewrite Hq. apply Z.ltb_ge in Hpos. rewrite Hpos.
  destruct (dict_get (_stock w) item); [discriminate|reflexivity].
Qed.

Lemma names_below_filter (t : Z) (d : dict) :
  names_below t d = map fst (filter (fun kv => snd kv <? t) d).
Proof.
  induction d as [|[name qty] rest IH]; simpl; auto.
  destruct (qty <? t); simpl; congruence.
Qed.

(** C8: [check_low_items] with an integer threshold returns the names of
    the entries whose quantity is below the threshold, in the order of the
    mapping; a name is returned exactly when its quantity is strictly below
    the threshold, so an item at the threshold is left out; on apple 3,
    banana 10, pear 5 and threshold 5 the answer is apple alone. *)
Theorem check_low_items_exact (w : world) (t : Z) :
  unique_keys (_stock w) = true ->
  exists low,
    check_low_items (PInt t) w = (Ok low, w)
    /\ low = map fst (filter (fun kv => snd kv <? t) (_stock w))
    /\ (forall name,
          In name low <->
          exists qty, dict_get (_stock w) name = Some qty /\ qty < t)
    /\ (forall name, dict_get (_stock w) name = Some t -> ~ In name low)
    /\ check_low_items (PInt 5) fruit_world = (Ok ["apple"], fruit_world).
Proof.
  intros Hu. exists (names_below t (_stock w)).
  assert (Hmem : forall name,
             In name (names_below t (_stock w)) <->
             exists qty, dict_get (_stock w) name = Some qty /\ qty < t).
  { intros name. rewrite names_below_filter, in_map_iff. split.
    - intros ([k v] & Hk & Hin). simpl in Hk. subst k.
      apply filter_In in Hin as [Hin Hlt]. simpl in Hlt.
      exists v. split; [now apply unique_keys_In_get | lia].
    - intros (qty & Hg & Hlt). exists (name, qty). split; auto.
      apply filter_In. split; [now apply dict_get_In | simpl; lia]. }
  repeat split.
  - apply names_below_filter.
  - apply Hmem.
  - apply Hmem.
  - intros name Hg Hin. apply Hmem in Hin as (qty & Hq & Hlt).
    rewrite Hg in Hq. inversion Hq. lia.
Qed.

(** *** Sequences of additions and removals *)

Lemma perform_move_ok (m : move) (w w' : world) :
  perform_move m w = (Ok tt, w') ->
  match m with
  | Added i q =>
      0 <= q
      /\ _stock w' = dict_setitem (_stock w) i (dict_get_default (_stock w) i 0 + q)
  | Removed i q =>
      0 <= q
      /\ exists c, dict_get (_stock w) i = Some c
                  /\ _stock w' = if c <=? q then dict_delitem (_stock w) i
                                 else dict_setitem (_stock w) i (c - q)
  end.
Proof.
  destruct m as [i q|i q]; simpl; run_method; cbn [as_int];
    destruct (Z.ltb_spec q 0) as [Hq|Hq]; try discriminate.
  - intros H. inversion H. auto.
  - destruct (dict_get (_stock w) i) as [c|]; [|discriminate].
    intros H. split; auto. exists c. split; auto.
    destruct (c <=? q); inversion H; reflexivity.
Qed.

Lemma play_cons (m : move) (ms : list move) (w w' : world) :
  play (m :: ms) w = (Ok tt, w') ->
  exists w1, perform_move m w = (Ok tt, w1) /\ play ms w1 = (Ok tt, w').
Proof.
  simpl. unfold bind. destruct (perform_move m w) as [[[]|e] w1]; [eauto|discriminate].
Qed.

Lemma perform_move_balance (m : move) (w w' : world) (item : string) :
  perform_move m w = (Ok tt, w') ->
  dict_get_default (_stock w') item 0 =
  running_balance item [m] (dict_get_default (_stock w) item 0).
Proof.
  intros H. apply perform_move_ok in H. unfold dict_get_default.
  destruct m as [i q|i q]; simpl.
  - destruct H as [_ ->].
    destruct (String.eqb_spec i item) as [->|Hne].
    + now rewrite dict_get_setitem_same.
    + rewrite dict_get_setitem_other; auto.
  - destruct H as (_ & c & Hc & ->).
    destruct (String.eqb_spec i item) as [->|Hne].
    + rewrite Hc. destruct (Z.leb_spec c q).
      * rewrite dict_get_delitem_same. lia.
      * rewrite dict_get_setitem_same. lia.
    + destruct (c <=? q).
      * rewrite dict_get_delitem_other; auto.
      * rewrite dict_get_setitem_other; auto.
Qed.

Lemma play_balance (ms : list move) (item : string) :
  forall w w',
    play ms w = (Ok tt, w') ->
    dict_get_default (_stock w') item 0 =
    running_balance item ms (dict_get_default (_stock w) item 0).
Proof.
  induction ms as [|m ms IH]; intros w w' H.
  - inversion H. reflexivity.
  - apply play_cons in H as (w1 & Hm & Hrest).
    rewrite (IH _ _ Hrest), (perform_move_balance _ _ _ item Hm).
    destruct m; reflexivity.
Qed.

Lemma play_nonnegative (ms : list move) (item : string) :
  forall w w' b,
    play ms w = (Ok tt, w') -> 0 <= b -> 0 <= running_balance item ms b.
Proof.
  induction ms as [|m ms IH]; intros w w' b H Hb; simpl; auto.
  apply play_cons in H as (w1 & Hm & Hrest).
  apply perform_move_ok in Hm.
  destruct m as [i q|i q]; destruct Hm as [Hq _];
    apply (IH _ _ _ Hrest); destruct (String.eqb i item); lia.
Qed.

Lemma play_never_added (ms : list move) (item : string) :
  forall w w',
    play ms w = (Ok tt, w') -> never_added item ms = true ->
    running_balance item ms 0 = 0.
Proof.
  induction ms as [|m ms IH]; intros w w' H Hn; simpl; auto.
  apply play_cons in H as (w1 & Hm & Hrest).
  apply perform_move_ok in Hm.
  destruct m as [i q|i q]; simpl in Hn.
  - apply andb_true_iff in Hn as [Hi Hn].
    apply negb_true_iff in Hi. rewrite Hi. apply (IH _ _ Hrest Hn).
  - destruct Hm as [Hq _].
    destruct (String.eqb i item);
      [replace (Z.max 0 (- q)) with 0 by lia|]; apply (IH _ _ Hrest Hn).
Qed.

Lemma running_balance_sums (item : string) (ms : list move) :
  forall b,
    never_overdrawn item ms b = true ->
    running_balance item ms b = b + total_added item ms - total_removed item ms.
Proof.
  induction ms as [|m ms IH]; intros b H; simpl in *; [lia|].
  destruct m as [i q|i q]; destruct (String.eqb i item).
  - rewrite IH; auto. lia.
  - rewrite IH; auto.
  - apply andb_true_iff in H as [Hq H]. apply Z.leb_le in Hq.
    rewrite Z.max_r by lia. rewrite IH; auto. lia.
  - rewrite IH; auto.
Qed.

(** C7, amended: after additions and removals that all succeeded on an
    empty ledger, [get_qty] gives the balance kept move by move, where a
    removal of more than is held leaves 0 and later additions count from
    there; the balance is never negative, it is the sum added minus the sum
    removed whenever no removal asked for more than was held, and it is 0
    for an item never added. *)
Theorem get_qty_running_balance (ms : list move) (w0 w : world) (item : string) :
  _stock w0 = [] ->
  play ms w0 = (Ok tt, w) ->
  get_qty (PStr item) w = (Ok (running_balance item ms 0), w)
  /\ 0 <= running_balance item ms 0
  /\ (never_overdrawn item ms 0 = true ->
      running_balance item ms 0 = total_added item ms - total_removed item ms)
  /\ (never_added item ms = true -> running_balance item ms 0 = 0).
Proof.
  intros Hempty Hplay. repeat split.
  - run_method. rewrite (play_balance ms item _ _ Hplay), Hempty. reflexivity.
  - apply (play_nonnegative ms item _ _ 0 Hplay). lia.
  - intros H. rewrite running_balance_sums; auto.
  - apply (play_never_added ms item _ _ Hplay).
Qed.

(** The documented scenario: ten apples in, three out leave seven; seven
    more out leave none and no entry. *)
Example apple_scenario :
  let w1 := snd (play [Added "apple" 10; Removed "apple" 3] fresh_world) in
  let w2 := snd (play [Removed "apple" 7] w1) in
  get_qty (PStr "apple") w1 = (Ok 7, w1)
  /\ get_qty (PStr "apple") w2 = (Ok 0, w2)
  /\ dict_contains (_stock w2) "apple" = false.
Proof. repeat split. Qed.

(** *** Loading and saving *)

Ltac run_load :=
  cbv [load_data save_data try_except open_read open_write json_load bind ret
       raise get_stock set_stock logger_info logger_warning logger_error
       logger_exception emit];
  cbn [_stock files writable log fst snd].

(** What [load_data] does when no file is at the path: it returns, hands
    the logger one INFO record and touches neither mapping nor files. *)
Lemma load_data_missing_file (w : world) (path : string) :
  files w path = None ->
  load_data path w =
  (Ok tt, World (_stock w) (files w) (writable w)
                (log w ++ [LogRecord INFO
                             "No inventory file found at %s; starting fresh"])).
Proof.
  intros Hnone. run_load. rewrite Hnone. reflexivity.
Qed.

(** C2, at a ledger holding apple, banana and pear and a path with no
    file: [load_data] returns and logs that it is starting fresh, as its
    documentation has it (keep empty inventory), yet the ledger is not
    empty afterwards: the three items are all still there. *)
Theorem load_data_missing_file_keeps_stock :
  files fruit_world "inventory.json" = None
  /\ load_data "inventory.json" fruit_world =
     (Ok tt,
      World [("apple", 3); ("banana", 10); ("pear", 5)] no_files any_path
            [LogRecord INFO "No inventory file found at %s; starting fresh"])
  /\ _stock (snd (load_data "inventory.json" fruit_world)) <> [].
Proof.
  split; [reflexivity|]. split; [reflexivity|]. discriminate.
Qed.

(** What [load_data] does with a file it rejects: text that is not JSON, a
    document that is not an object, or an object with a value on which
    [int()] raises [TypeError] or [ValueError].  One ERROR record, no
    exception, the mapping as before. *)
Lemma load_data_rejected (w : world) (path : string) (c : contents) :
  files w path = Some c ->
  match c with
  | Malformed => True
  | Document (PDict items) =>
      exists e, coerce_items items [] = Raise e
                /\ (e = TypeError \/ e = ValueError)
  | Document _ => True
  end ->
  exists m,
    load_data path w =
    (Ok tt, World (_stock w) (files w) (writable w) (log w ++ [LogRecord ERROR m])).
Proof.
  intros Hc Hbad. run_load. rewrite Hc.
  destruct c as [|v]; [eexists; reflexivity|].
  destruct v; try (eexists; reflexivity).
  destruct Hbad as (e & -> & [->| ->]); eexists; reflexivity.
Qed.

Lemma py_int_raises (v : pyval) (e : exn) :
  py_int v = Raise e -> e = TypeError \/ e = ValueError \/ e = OverflowError.
Proof.
  destruct v as [| | |f|s| |]; simpl; intros H; try discriminate;
    try (inversion H; auto; fail).
  - destruct f; simpl in H; inversion H; auto.
  - destruct (int_of_str s); inversion H; auto.
Qed.

Lemma coerce_items_raises (items : list (pykey * pyval)) (e : exn) :
  forall acc,
    coerce_items items acc = Raise e ->
    e = TypeError \/ e = ValueError \/ e = OverflowError.
Proof.
  induction items as [|[k v] rest IH]; simpl; intros acc H; [discriminate|].
  destruct (py_int v) as [z|e'] eqn:Hv; [eauto|].
  inversion H; subst. eapply py_int_raises; eauto.
Qed.

(** [load_data] is all or nothing: when it raises, as it does with the
    [OverflowError] of [int()] on an infinite float, mapping, files and log
    are the ones before the call. *)
Lemma load_data_raise_changes_nothing (w w' : world) (path : string) (e : exn) :
  load_data path w = (Raise e, w') -> w' = w.
Proof.
  run_load. destruct (files w path) as [[|v]|]; try discriminate.
  destruct v; try discriminate.
  destruct (coerce_items items []) as [d|e']; try discriminate.
  destruct e'; cbn; intros H; inversion H; reflexivity.
Qed.

(** C3, at a file that reads [{"apple": 1e999}]: the value is the float
    infinity, [int()] raises [OverflowError], no [except] clause of
    [load_data] matches it and it reaches the caller; the mapping is
    untouched. *)
Theorem load_data_overflow_escapes :
  load_data "inventory.json" overflow_world = (Raise OverflowError, overflow_world).
Proof. reflexivity. Qed.

Lemma int_of_float_truncates (f : spec_float) :
  is_finite_float f = true -> int_of_float f = Ok (truncate_float f).
Proof.
  destruct f as [s|s| |s m e]; simpl; try discriminate; auto.
  intros _. f_equal.
  destruct (Z.leb_spec 0 e) as [He|He].
  - rewrite Z.shiftl_mul_pow2 by lia. destruct s; auto.
    change (Z.neg m) with (- Z.pos m). lia.
  - rewrite <- Z.shiftr_opp_r, Z.shiftr_div_pow2 by lia.
    assert (Hpow : 0 < 2 ^ (- e)) by (apply Z.pow_pos_nonneg; lia).
    rewrite <- Z.quot_div_nonneg by lia.
    destruct s; auto.
    change (Z.neg m) with (- Z.pos m). rewrite Z.quot_opp_l by lia. reflexivity.
Qed.

Lemma py_int_rounded (v : pyval) :
  finite_float_or_bool v = true -> py_int v = Ok (rounded v).
Proof.
  destruct v as [|b| |f| | |]; simpl; try discriminate.
  - destruct b; auto.
  - apply int_of_float_truncates.
Qed.

Lemma coerce_items_rounded (items : list (pykey * pyval)) :
  forallb (fun kv => finite_float_or_bool (snd kv)) items = true ->
  forall acc,
    coerce_items items acc =
    Ok (fold_left (fun acc kv => dict_setitem acc (py_str (fst kv)) (rounded (snd kv)))
                  items acc).
Proof.
  induction items as [|[k v] rest IH]; simpl; intros H acc; auto.
  apply andb_true_iff in H as [Hv Hrest].
  rewrite (py_int_rounded v Hv). now apply IH.
Qed.

(** C10, amended: on a file holding an object whose values are finite
    floats or booleans, [load_data] returns without raising and the mapping
    becomes, whatever it was, the one that binds each key to its value
    rounded toward zero, booleans counting as 0 and 1; 3.9 becomes 3. *)
Theorem load_data_finite_floats_and_bools
    (w : world) (path : string) (items : list (pykey * pyval)) :
  files w path = Some (Document (PDict items)) ->
  forallb (fun kv => finite_float_or_bool (snd kv)) items = true ->
  load_data path w =
    (Ok tt, World (rounded_mapping items) (files w) (writable w)
                  (log w ++ [LogRecord INFO "Inventory loaded from %s"]))
  /\ py_int (PFloat float_3_9) = Ok 3
  /\ py_int (PBool true) = Ok 1
  /\ py_int (PBool false) = Ok 0.
Proof.
  intros Hfile Hvals. repeat split.
  run_load. rewrite Hfile, (coerce_items_rounded items Hvals []). reflexivity.
Qed.

Lemma coerce_items_dump (d : dict) :
  forall acc,
    unique_keys (acc ++ d) = true ->
    coerce_items (map (fun kv => (KStr (fst kv), PInt (snd kv))) d) acc
    = Ok (acc ++ d).
Proof.
  induction d as [|[k v] rest IH]; simpl; intros acc Hu.
  - now rewrite app_nil_r.
  - apply unique_keys_middle in Hu as [Hfresh Hu].
    rewrite (dict_setitem_fresh _ _ _ Hfresh), IH by assumption.
    now rewrite <- app_assoc.
Qed.

(** C4: saving a ledger to a path that can be written returns; a ledger
    made anew next to that file, whatever its memory held before, is empty,
    and loading the path into it returns with the mapping that was saved,
    entry for entry and in the same order. *)
Theorem save_load_round_trip (w loader : world) (path : string) :
  unique_keys (_stock w) = true ->
  writable w path = true ->
  files loader path = files (snd (save_data path w)) path ->
  exists w1 w2 w3,
    save_data path w = (Ok tt, w1)
    /\ __init__ None loader = (Ok tt, w2)
    /\ _stock w2 = []
    /\ load_data path w2 = (Ok tt, w3)
    /\ _stock w3 = _stock w.
Proof.
  intros Hu Hw Hfile.
  assert (Hsave : exists w1, save_data path w = (Ok tt, w1)
                             /\ files w1 path
                                = Some (Document (json_dump (_stock w)))).
  { run_load. rewrite Hw. cbn. eexists. split; [reflexivity|].
    cbn. now rewrite String.eqb_refl. }
  destruct Hsave as (w1 & Hsave & Hdoc).
  rewrite Hsave in Hfile. cbn [snd] in Hfile. rewrite Hdoc in Hfile.
  exists w1. do 2 eexists. split; [exact Hsave|].
  split; [reflexivity|]. split; [reflexivity|].
  run_load. rewrite Hfile. unfold json_dump.
  rewrite (coerce_items_dump (_stock w) []) by exact Hu.
  split; reflexivity.
Qed.

(** *** The ledger over a whole session *)

Lemma coerce_items_positive (items : list (pykey * pyval)) :
  positive_items items = true ->
  forall acc d,
    positive_stock acc = true ->
    coerce_items items acc = Ok d ->
    positive_stock d = true.
Proof.
  unfold positive_items, positive_value.
  induction items as [|[k v] rest IH]; simpl; intros H acc d Hacc Hrun.
  - inversion Hrun; subst; auto.
  - apply andb_true_iff in H as [Hv Hrest].
    destruct (py_int v) as [z|e]; [|discriminate].
    apply (IH Hrest _ _ (positive_stock_setitem acc (py_str k) z Hacc
                           ltac:(lia)) Hrun).
Qed.

Lemma init_loop_positive (items : list (pykey * pyval)) :
  positive_items items = true ->
  forall w w',
    positive_stock (_stock w) = true ->
    init_loop items w = (Ok tt, w') ->
    positive_stock (_stock w') = true.
Proof.
  unfold positive_items, positive_value.
  induction items as [|[k v] rest IH]; simpl; intros H w w' Hw Hrun.
  - inversion Hrun; subst; auto.
  - apply andb_true_iff in H as [Hv Hrest].
    destruct (py_int v) as [z|e]; [|discriminate].
    cbv [bind get_stock set_stock] in Hrun. cbn [_stock files writable log] in Hrun.
    apply (IH Hrest _ _) in Hrun; auto. cbn [_stock].
    apply positive_stock_setitem; auto. lia.
Qed.

Lemma init_positive (initial : option (list (pykey * pyval))) (w w' : world) :
  positive_initial initial = true ->
  __init__ initial w = (Ok tt, w') ->
  positive_stock (_stock w') = true.
Proof.
  intros Hp. unfold __init__. cbv [bind set_stock ret].
  destruct initial as [[|kv rest]|]; try (intros H; inversion H; reflexivity).
  apply init_loop_positive; auto.
Qed.

Lemma perform_positive (c : call) (w : world) :
  positive_call c w = true ->
  positive_stock (_stock w) = true ->
  positive_stock (_stock (snd (perform c w))) = true.
Proof.
  intros Hc Hw. destruct c as [item qty|item qty|path|path]; simpl in *.
  - destruct item; run_method; auto.
    destruct (as_int qty) as [q|]; auto.
    destruct (Z.ltb_spec q 0); auto. cbn.
    apply positive_stock_setitem; auto.
    apply negb_true_iff, Z.eqb_neq in Hc.
    unfold dict_get_default.
    destruct (dict_get (_stock w) s) as [c|] eqn:Hg; [|lia].
    pose proof (positive_stock_get _ _ _ Hw Hg). lia.
  - destruct item; run_method; auto.
    destruct (as_int qty) as [q|]; auto.
    destruct (Z.ltb_spec q 0); auto.
    destruct (dict_get (_stock w) s) as [c|] eqn:Hg; auto.
    destruct (Z.leb_spec c q); cbn.
    + now apply positive_stock_delitem.
    + apply positive_stock_setitem; auto. lia.
  - run_load. destruct (files w path) as [[|v]|]; auto.
    destruct v; auto.
    destruct (coerce_items items []) as [d|e] eqn:Hrun.
    + exact (coerce_items_positive items Hc [] d eq_refl Hrun).
    + destruct e; auto.
  - run_load. destruct (writable w path); auto.
Qed.

Lemma session_positive (cs : list call) :
  forall w,
    positive_session cs w = true ->
    positive_stock (_stock w) = true ->
    positive_stock (_stock (session cs w)) = true.
Proof.
  induction cs as [|c rest IH]; simpl; intros w H Hw; auto.
  apply andb_true_iff in H as [Hc Hrest].
  apply IH; auto. now apply perform_positive.
Qed.

(** C1, amended: a ledger made empty or from an initial mapping with
    positive values, then taken through [add_item] calls with a quantity
    other than 0, [remove_item] calls, saves, and loads of files with
    positive values, has no entry with quantity 0 or below: an item is in
    the mapping exactly when its quantity is above 0. *)
Theorem positive_ledger_invariant
    (initial : option (list (pykey * pyval))) (cs : list call) (w0 w1 : world) :
  __init__ initial w0 = (Ok tt, w1) ->
  positive_initial initial = true ->
  positive_session cs w1 = true ->
  (forall k v, In (k, v) (_stock (session cs w1)) -> 0 < v)
  /\ (forall item,
        dict_contains (_stock (session cs w1)) item = true
        <-> 0 < dict_get_default (_stock (session cs w1)) item 0).
Proof.
  intros Hinit Hpi Hps.
  assert (Hpos : positive_stock (_stock (session cs w1)) = true).
  { apply session_positive; auto. eapply init_positive; eauto. }
  split.
  - intros k v Hin. unfold positive_stock in Hpos.
    rewrite forallb_forall in Hpos. apply Hpos in Hin. simpl in Hin. lia.
  - intros item. unfold dict_contains, dict_get_default.
    destruct (dict_get (_stock (session cs w1)) item) as [v|] eqn:Hg.
    + pose proof (positive_stock_get _ _ _ Hpos Hg). tauto.
    + split; [discriminate|lia].
Qed.

(** ** Beyond the contract of each call *)

(** *** More on the dictionary *)

Lemma dict_contains_setitem (d : dict) (k k' : string) (v : Z) :
  dict_contains (dict_setitem d k v) k' = dict_contains d k' || String.eqb k k'.
Proof.
  unfold dict_contains. destruct (String.eqb_spec k k') as [->|Hne].
  - rewrite dict_get_setitem_same. now rewrite orb_true_r.
  - rewrite dict_get_setitem_other by congruence. now rewrite orb_false_r.
Qed.

Lemma dict_contains_delitem (d : dict) (k k' : string) :
  dict_contains (dict_delitem d k) k' = dict_contains d k' && negb (String.eqb k k').
Proof.
  unfold dict_contains. destruct (String.eqb_spec k k') as [->|Hne].
  - rewrite dict_get_delitem_same. now rewrite andb_false_r.
  - rewrite dict_get_delitem_other by congruence. now rewrite andb_true_r.
Qed.

Lemma unique_keys_setitem (d : dict) (k : string) (v : Z) :
  unique_keys d = true -> unique_keys (dict_setitem d k v) = true.
Proof.
  induction d as [|[k' v'] rest IH]; simpl; auto.
  intros H. apply andb_true_iff in H as [Hfresh Hu].
  destruct (String.eqb_spec k' k) as [->|Hne]; simpl.
  - now rewrite Hfresh, Hu.
  - rewrite dict_contains_setitem, IH by assumption.
    apply negb_true_iff in Hfresh. rewrite Hfresh.
    destruct (String.eqb_spec k k'); [congruence|reflexivity].
Qed.

Lemma unique_keys_delitem (d : dict) (k : string) :
  unique_keys d = true -> unique_keys (dict_delitem d k) = true.
Proof.
  induction d as [|[k' v'] rest IH]; simpl; auto.
  intros H. apply andb_true_iff in H as [Hfresh Hu].
  destruct (String.eqb k' k); simpl; auto.
  rewrite dict_contains_delitem, IH by assumption.
  apply negb_true_iff in Hfresh. now rewrite Hfresh.
Qed.

Lemma dict_setitem_twice (d : dict) (k : string) (v v' : Z) :
  dict_setitem (dict_setitem d k v) k v' = dict_setitem d k v'.
Proof.
  induction d as [|[k0 v0] rest IH]; simpl.
  - now rewrite String.eqb_refl.
  - destruct (String.eqb k0 k) eqn:E; simpl; rewrite E; congruence.
Qed.

Lemma dict_setitem_same_value (d : dict) (k : string) (v : Z) :
  dict_get d k = Some v -> dict_setitem d k v = d.
Proof.
  induction d as [|[k0 v0] rest IH]; simpl; [discriminate|].
  destruct (String.eqb k0 k); intros H.
  - congruence.
  - now rewrite IH.
Qed.

Lemma dict_delitem_absent (d : dict) (k : string) :
  dict_get d k = None -> dict_delitem d k = d.
Proof.
  induction d as [|[k0 v0] rest IH]; simpl; auto.
  destruct (String.eqb k0 k); [discriminate|].
  intros H. now rewrite IH.
Qed.

Lemma dict_delitem_setitem (d : dict) (k : string) (v : Z) :
  dict_delitem (dict_setitem d k v) k = dict_delitem d k.
Proof.
  induction d as [|[k0 v0] rest IH]; simpl.
  - now rewrite String.eqb_refl.
  - destruct (String.eqb k0 k) eqn:E; simpl; rewrite E; congruence.
Qed.

Lemma dict_keys_setitem_present (d : dict) (k : string) (v : Z) :
  dict_contains d k = true -> dict_keys (dict_setitem d k v) = dict_keys d.
Proof.
  unfold dict_contains, dict_keys.
  induction d as [|[k0 v0] rest IH]; simpl; [discriminate|].
  destruct (String.eqb k0 k); simpl; auto.
  intros H. now rewrite IH.
Qed.

Lemma dict_keys_delitem (d : dict) (k : string) :
  dict_keys (dict_delitem d k)
  = filter (fun k' => negb (String.eqb k' k)) (dict_keys d).
Proof.
  unfold dict_keys.
  induction d as [|[k0 v0] rest IH]; simpl; auto.
  destruct (String.eqb k0 k); simpl; congruence.
Qed.

(** *** Removal: failures and frame *)

(** [remove_item] raises exactly when the item is not a string, the
    quantity is not an integer, the quantity is negative, or the item is
    not in the mapping; the exception is [TypeError], [ValueError] or
    [KeyError], the mapping and the files are untouched, and short of
    [KeyError] not even a log record is made. *)
Theorem remove_item_failures (w : world) (item qty : pyval) :
  ((exists e w', remove_item item qty w = (Raise e, w'))
   <-> (is_str item = false \/ as_int qty = None
        \/ (exists q, as_int qty = Some q /\ q < 0)
        \/ (exists name, item = PStr name
                         /\ dict_contains (_stock w) name = false)))
  /\ (forall e w', remove_item item qty w = (Raise e, w') ->
       _stock w' = _stock w /\ files w' = files w
       /\ (e = TypeError \/ e = ValueError \/ e = KeyError)
       /\ (e <> KeyError -> w' = w)).
Proof.
  destruct item as [| | | |name| |];
    try (run_method; split; [split; [intros _; now left | intros _; eauto]|];
         intros e w' H; inversion H; subst; repeat split; auto).
  destruct (as_int qty) as [q|] eqn:Hq.
  - destruct (Z.ltb_spec q 0) as [Hneg|Hpos].
    + assert (Hrun : remove_item (PStr name) qty w = (Raise ValueError, w)).
      { run_method. rewrite Hq. apply Z.ltb_lt in Hneg. now rewrite Hneg. }
      rewrite Hrun. split; [split; [intros _; right; right; left; eauto | eauto]|].
      intros e w' H; inversion H; subst; repeat split; auto.
    + unfold dict_contains. run_method. rewrite Hq.
      apply Z.ltb_ge in Hpos. rewrite Hpos.
      destruct (dict_get (_stock w) name) as [c|] eqn:Hc.
      * split.
        -- split.
           ++ intros (e & w' & H). destruct (c <=? q); discriminate.
           ++ intros [H|[H|[(q' & H & Hlt)|(n & Hn & Habs)]]]; try discriminate.
              ** inversion H; subst. apply Z.ltb_ge in Hpos. lia.
              ** inversion Hn; subst. rewrite Hc in Habs. discriminate.
        -- intros e w' H. destruct (c <=? q); discriminate.
      * split.
        -- split; [intros _|eauto]. right; right; right. exists name.
           rewrite Hc. auto.
        -- intros e w' H. inversion H; subst. cbn. repeat split; auto.
           intros Hk. congruence.
  - assert (Hrun : remove_item (PStr name) qty w = (Raise TypeError, w)).
    { run_method. now rewrite Hq. }
    rewrite Hrun. split; [split; [intros _; right; left; auto | eauto]|].
    intros e w' H; inversion H; subst; repeat split; auto.
Qed.

(** When [remove_item] returns, every other item has the quantity it had,
    the files are untouched, and the keys keep their order: all of them if
    the item is still there, all but the item if it was deleted. *)
Theorem remove_item_frame (w w' : world) (item qty : pyval) :
  remove_item item qty w = (Ok tt, w') ->
  exists name,
    item = PStr name
    /\ (forall k, k <> name -> dict_get (_stock w') k = dict_get (_stock w) k)
    /\ files w' = files w
    /\ dict_keys (_stock w') =
       (if dict_contains (_stock w') name then dict_keys (_stock w)
        else filter (fun k => negb (String.eqb k name)) (dict_keys (_stock w))).
Proof.
  destruct item as [| | | |name| |]; try (run_method; discriminate).
  run_method. destruct (as_int qty) as [q|]; [|discriminate].
  destruct (q <? 0); [discriminate|].
  destruct (dict_get (_stock w) name) as [c|] eqn:Hc; [|discriminate].
  destruct (c <=? q); intros H; inversion H; subst; clear H; cbn;
    exists name; repeat split; auto.
  - intros k Hk. now apply dict_get_delitem_other.
  - rewrite dict_contains_delitem, String.eqb_refl, andb_false_r.
    apply dict_keys_delitem.
  - intros k Hk. now apply dict_get_setitem_other.
  - rewrite dict_contains_setitem, String.eqb_refl, orb_true_r.
    apply dict_keys_setitem_present. unfold dict_contains. now rewrite Hc.
Qed.

(** *** Queries and the report *)

(** [get_qty], [check_low_items] and [stock] leave the world as it is,
    whatever they are given; [get_qty] raises only on an item that is not a
    string, [check_low_items] only on a threshold that is not an integer,
    and then [TypeError]. *)
Theorem queries_read_only (w : world) (item threshold : pyval) :
  snd (get_qty item w) = w
  /\ snd (check_low_items threshold w) = w
  /\ stock w = (Ok (_stock w), w)
  /\ (fst (get_qty item w) = Raise TypeError <-> is_str item = false)
  /\ (fst (check_low_items threshold w) = Raise TypeError
      <-> as_int threshold = None)
  /\ (forall e,
        fst (get_qty item w) = Raise e
        \/ fst (check_low_items threshold w) = Raise e ->
        e = TypeError).
Proof.
  run_method. repeat split.
  - destruct item; reflexivity.
  - destruct (as_int threshold); reflexivity.
  - destruct item; simpl; auto; discriminate.
  - destruct item; simpl; auto; discriminate.
  - destruct (as_int threshold); simpl; auto; discriminate.
  - destruct (as_int threshold); simpl; auto; discriminate.
  - intros e [H|H].
    + destruct item; simpl in H; congruence.
    + destruct (as_int threshold); simpl in H; congruence.
Qed.

Lemma report_lines_log (items : list (string * Z)) :
  forall w,
    report_lines items w =
    (Ok tt, World (_stock w) (files w) (writable w)
                  (log w ++ repeat (LogRecord INFO "%s -> %d") (List.length items))).
Proof.
  induction items as [|kv rest IH]; intros w; simpl.
  - rewrite app_nil_r. destruct w; reflexivity.
  - cbv [bind logger_info emit]. rewrite IH. cbn [_stock files writable log].
    now rewrite <- app_assoc.
Qed.

(** [print_report] never raises: it hands the logger the header and one
    line per entry, all INFO, and changes neither mapping nor files. *)
Theorem print_report_log (w : world) :
  print_report w =
  (Ok tt, World (_stock w) (files w) (writable w)
                (log w ++ LogRecord INFO "Items Report"
                     :: repeat (LogRecord INFO "%s -> %d") (List.length (_stock w)))).
Proof.
  unfold print_report. cbv [bind logger_info emit get_stock].
  cbn [_stock files writable log]. rewrite report_lines_log.
  cbn [_stock files writable log]. now rewrite <- app_assoc.
Qed.

(** *** Saving *)

(** [save_data] to a path that can be written returns, puts the mapping as
    a JSON object in that file and leaves every other file and the mapping
    alone; to a path that cannot be written it hands the logger one ERROR
    record and raises [OSError] again, files and mapping unchanged. *)
Theorem save_data_outcomes (w : world) (path : string) :
  (writable w path = true ->
   exists w',
     save_data path w = (Ok tt, w')
     /\ files w' path = Some (Document (json_dump (_stock w)))
     /\ (forall p, p <> path -> files w' p = files w p)
     /\ _stock w' = _stock w
     /\ log w' = log w ++ [LogRecord INFO "Inventory saved to %s"])
  /\ (writable w path = false ->
      save_data path w =
      (Raise OSError,
       World (_stock w) (files w) (writable w)
             (log w ++ [LogRecord ERROR "Failed to write inventory to %s"]))).
Proof.
  run_load. split; intros Hw; rewrite Hw; cbn; [|reflexivity].
  eexists. split; [reflexivity|]. cbn. rewrite String.eqb_refl.
  repeat split; auto.
  intros p Hp. destruct (String.eqb_spec p path); congruence.
Qed.

(** *** The constructor and the comprehension of [load_data] *)

Lemma init_loop_coerce (items : list (pykey * pyval)) :
  forall w,
    match coerce_items items (_stock w) with
    | Ok d => init_loop items w = (Ok tt, World d (files w) (writable w) (log w))
    | Raise e => exists w', init_loop items w = (Raise e, w')
    end.
Proof.
  induction items as [|[k v] rest IH]; intros w; simpl.
  - destruct w; reflexivity.
  - destruct (py_int v) as [z|e]; [|eexists; reflexivity].
    cbv [bind get_stock set_stock].
    specialize (IH (World (dict_setitem (_stock w) (py_str k) z)
                          (files w) (writable w) (log w))).
    cbn [_stock files writable log] in IH. exact IH.
Qed.

Lemma init_coerce (items : list (pykey * pyval)) (w : world) :
  match coerce_items items [] with
  | Ok d => __init__ (Some items) w = (Ok tt, World d (files w) (writable w) (log w))
  | Raise e => exists w', __init__ (Some items) w = (Raise e, w')
  end.
Proof.
  unfold __init__. cbv [bind set_stock ret].
  destruct items as [|kv rest]; [reflexivity|].
  apply (init_loop_coerce (kv :: rest) (World [] (files w) (writable w) (log w))).
Qed.

(** The constructor and [load_data] build the same mapping: when
    [Inventory(items)] returns, loading a file that holds [items] returns
    with that very mapping; when the constructor raises, loading that file
    leaves the mapping as it was. *)
Theorem constructor_agrees_with_load
    (items : list (pykey * pyval)) (w0 w : world) (path : string) :
  files w path = Some (Document (PDict items)) ->
  (forall w1,
      __init__ (Some items) w0 = (Ok tt, w1) ->
      exists w', load_data path w = (Ok tt, w') /\ _stock w' = _stock w1)
  /\ (forall e w1,
        __init__ (Some items) w0 = (Raise e, w1) ->
        _stock (snd (load_data path w)) = _stock w).
Proof.
  intros Hfile. pose proof (init_coerce items w0) as Hinit.
  run_load. rewrite Hfile.
  destruct (coerce_items items []) as [d|e'] eqn:Hc.
  - rewrite Hinit. split.
    + intros w1 H. inversion H; subst. eexists. split; reflexivity.
    + intros e w1 H. discriminate.
  - destruct Hinit as (w1' & Hinit). rewrite Hinit. split.
    + intros w1 H. discriminate.
    + intros e w1 _. destruct e'; reflexivity.
Qed.

Lemma coerce_items_last_binding (items : list (pykey * pyval)) (k : string) :
  forall acc d,
    coerce_items items acc = Ok d ->
    match last_binding items k with
    | Some v => exists z, py_int v = Ok z /\ dict_get d k = Some z
    | None => dict_get d k = dict_get acc k
    end.
Proof.
  induction items as [|[k' v] rest IH]; simpl; intros acc d H.
  - inversion H; reflexivity.
  - destruct (py_int v) as [z|e] eqn:Hv; [|discriminate].
    specialize (IH _ _ H).
    destruct (last_binding rest k) as [v'|]; [exact IH|].
    rewrite IH. destruct (String.eqb_spec (py_str k') k) as [<-|Hne].
    + exists z. split; auto. apply dict_get_setitem_same.
    + apply dict_get_setitem_other. congruence.
Qed.

(** In a ledger made from an initial mapping, an item has the integer
    value of the last entry whose key reads as that item under [str()], so
    of two keys that read alike the later one wins; an item that no key
    reads as is absent. *)
Theorem constructor_last_value_wins
    (items : list (pykey * pyval)) (w0 w1 : world) (k : string) :
  __init__ (Some items) w0 = (Ok tt, w1) ->
  match last_binding items k with
  | Some v => exists z, py_int v = Ok z /\ dict_get (_stock w1) k = Some z
  | None => dict_get (_stock w1) k = None
  end.
Proof.
  intros H. pose proof (init_coerce items w0) as Hinit.
  destruct (coerce_items items []) as [d|e] eqn:Hc.
  - rewrite Hinit in H. inversion H; subst. cbn [_stock].
    apply (coerce_items_last_binding items k [] d Hc).
  - destruct Hinit as (w' & Hinit). rewrite Hinit in H. discriminate.
Qed.

(** *** What a session keeps *)

Lemma coerce_items_unique (items : list (pykey * pyval)) :
  forall acc d,
    unique_keys acc = true ->
    coerce_items items acc = Ok d ->
    unique_keys d = true.
Proof.
  induction items as [|[k v] rest IH]; simpl; intros acc d Hu H.
  - inversion H; subst; auto.
  - destruct (py_int v) as [z|e]; [|discriminate].
    apply (IH _ _ (unique_keys_setitem acc (py_str k) z Hu) H).
Qed.

Lemma perform_unique (c : call) (w : world) :
  unique_keys (_stock w) = true ->
  unique_keys (_stock (snd (perform c w))) = true.
Proof.
  intros Hu. destruct c as [item qty|item qty|path|path]; simpl.
  - destruct item; run_method; auto.
    destruct (as_int qty) as [q|]; auto.
    destruct (q <? 0); auto. cbn. now apply unique_keys_setitem.
  - destruct item; run_method; auto.
    destruct (as_int qty) as [q|]; auto.
    destruct (q <? 0); auto.
    destruct (dict_get (_stock w) s) as [c|]; auto.
    destruct (c <=? q); cbn.
    + now apply unique_keys_delitem.
    + now apply unique_keys_setitem.
  - run_load. destruct (files w path) as [[|v]|]; auto.
    destruct v; auto.
    destruct (coerce_items items []) as [d|e] eqn:Hrun.
    + exact (coerce_items_unique items [] d eq_refl Hrun).
    + destruct e; auto.
  - run_load. destruct (writable w path); auto.
Qed.

(** Every ledger holds each key once: whatever the initial mapping and
    whatever calls follow, with whatever arguments and outcomes, no key
    occurs twice in the mapping. *)
Theorem ledger_keys_unique
    (initial : option (list (pykey * pyval))) (cs : list call) (w0 w1 : world) :
  __init__ initial w0 = (Ok tt, w1) ->
  unique_keys (_stock (session cs w1)) = true.
Proof.
  intros Hinit.
  assert (Hu : unique_keys (_stock w1) = true).
  { destruct initial as [items|].
    - pose proof (init_coerce items w0) as H.
      destruct (coerce_items items []) as [d|e] eqn:Hc.
      + rewrite H in Hinit. inversion Hinit; subst.
        exact (coerce_items_unique items [] d eq_refl Hc).
      + destruct H as (w' & H). rewrite H in Hinit. discriminate.
    - inversion Hinit; reflexivity. }
  clear Hinit. revert w1 Hu.
  induction cs as [|c rest IH]; simpl; intros w1 Hu; auto.
  apply IH. now apply perform_unique.
Qed.

Lemma nonnegative_stock_get (d : dict) (k : string) (v : Z) :
  nonnegative_stock d = true -> dict_get d k = Some v -> 0 <= v.
Proof.
  unfold nonnegative_stock. intros Hp Hg. apply dict_get_In in Hg.
  rewrite forallb_forall in Hp. apply Hp in Hg. simpl in Hg. lia.
Qed.

Lemma nonnegative_stock_setitem (d : dict) (k : string) (v : Z) :
  nonnegative_stock d = true -> 0 <= v ->
  nonnegative_stock (dict_setitem d k v) = true.
Proof.
  unfold nonnegative_stock. intros Hp Hv.
  induction d as [|[k' v'] rest IH]; simpl in *.
  - apply andb_true_iff. split; [lia|reflexivity].
  - apply andb_true_iff in Hp as [H1 H2].
    destruct (String.eqb k' k); simpl; apply andb_true_iff; split; auto; lia.
Qed.

Lemma nonnegative_stock_delitem (d : dict) (k : string) :
  nonnegative_stock d = true -> nonnegative_stock (dict_delitem d k) = true.
Proof.
  unfold nonnegative_stock.
  induction d as [|[k' v'] rest IH]; simpl; auto.
  intros Hp. apply andb_true_iff in Hp as [H1 H2].
  destruct (String.eqb k' k); simpl; auto.
  apply andb_true_iff. auto.
Qed.

Lemma perform_nonnegative (c : call) (w : world) :
  is_load c = false ->
  nonnegative_stock (_stock w) = true ->
  nonnegative_stock (_stock (snd (perform c w))) = true.
Proof.
  intros Hc Hw. destruct c as [item qty|item qty|path|path]; simpl in *;
    try discriminate.
  - destruct item; run_method; auto.
    destruct (as_int qty) as [q|]; auto.
    destruct (Z.ltb_spec q 0); auto. cbn.
    apply nonnegative_stock_setitem; auto.
    unfold dict_get_default.
    destruct (dict_get (_stock w) s) as [c|] eqn:Hg; [|lia].
    pose proof (nonnegative_stock_get _ _ _ Hw Hg). lia.
  - destruct item; run_method; auto.
    destruct (as_int qty) as [q|]; auto.
    destruct (Z.ltb_spec q 0); auto.
    destruct (dict_get (_stock w) s) as [c|] eqn:Hg; auto.
    destruct (Z.leb_spec c q); cbn.
    + now apply nonnegative_stock_delitem.
    + apply nonnegative_stock_setitem; auto. lia.
  - run_load. destruct (writable w path); auto.
Qed.

(** A ledger made empty and taken through [add_item], [remove_item] and
    [save_data] calls only, with any arguments at all, never holds a
    negative quantity. *)
Theorem no_negative_stock_without_load (cs : list call) (w0 : world) :
  forallb (fun c => negb (is_load c)) cs = true ->
  forall k v,
    In (k, v) (_stock (session cs (snd (__init__ None w0)))) -> 0 <= v.
Proof.
  intros Hcs.
  assert (Hn : nonnegative_stock (_stock (session cs (snd (__init__ None w0)))) = true).
  { assert (H0 : nonnegative_stock (_stock (snd (__init__ None w0))) = true)
      by reflexivity.
    revert H0. generalize (snd (__init__ None w0)) as w.
    induction cs as [|c rest IH]; simpl in *; intros w Hw; auto.
    apply andb_true_iff in Hcs as [Hc Hrest]. apply negb_true_iff in Hc.
    apply IH; auto. now apply perform_nonnegative. }
  intros k v Hin. unfold nonnegative_stock in Hn.
  rewrite forallb_forall in Hn. apply Hn in Hin. simpl in Hin. lia.
Qed.

Lemma perform_files (c : call) (w : world) (p : string) :
  saves_to p c = false ->
  files (snd (perform c w)) p = files w p
  /\ writable (snd (perform c w)) = writable w.
Proof.
  intros Hc. destruct c as [item qty|item qty|path|path]; simpl in *.
  - destruct item; run_method; auto.
    destruct (as_int qty) as [q|]; auto. destruct (q <? 0); auto.
  - destruct item; run_method; auto.
    destruct (as_int qty) as [q|]; auto. destruct (q <? 0); auto.
    destruct (dict_get (_stock w) s) as [c|]; auto. destruct (c <=? q); auto.
  - run_load. destruct (files w path) as [[|v]|]; auto.
    destruct v; auto.
    destruct (coerce_items items []) as [d|e]; auto. destruct e; auto.
  - run_load. destruct (writable w path); auto. cbn.
    rewrite String.eqb_sym, Hc. auto.
Qed.

Lemma session_files (cs : list call) (p : string) :
  forall w,
    forallb (fun c => negb (saves_to p c)) cs = true ->
    files (session cs w) p = files w p
    /\ writable (session cs w) = writable w.
Proof.
  induction cs as [|c rest IH]; simpl; intros w H; auto.
  apply andb_true_iff in H as [Hc Hrest]. apply negb_true_iff in Hc.
  destruct (IH (snd (perform c w)) Hrest) as [Hf Hw].
  destruct (perform_files c w p Hc) as [Hf' Hw'].
  split; congruence.
Qed.

(** Only [save_data] writes, and only to its own path: over any calls, a
    file that no [save_data] of the session names holds what it held, and
    what can be written does not change. *)
Theorem files_written_by_save_only (cs : list call) (p : string) (w : world) :
  forallb (fun c => negb (saves_to p c)) cs = true ->
  files (session cs w) p = files w p
  /\ writable (session cs w) = writable w.
Proof. apply session_files. Qed.

(** A saved file is a checkpoint: after [save_data] to a path that can be
    written, whatever calls follow short of another save to that path,
    [load_data] of the path returns and the mapping is again, entry for
    entry, the one that was saved. *)
Theorem load_restores_saved (w : world) (path : string) (cs : list call) :
  unique_keys (_stock w) = true ->
  writable w path = true ->
  forallb (fun c => negb (saves_to path c)) cs = true ->
  exists w',
    load_data path (session cs (snd (save_data path w))) = (Ok tt, w')
    /\ _stock w' = _stock w.
Proof.
  intros Hu Hw Hcs.
  destruct (session_files cs path (snd (save_data path w)) Hcs)
    as [Hfile _].
  assert (Hsaved : files (snd (save_data path w)) path
                   = Some (Document (json_dump (_stock w)))).
  { run_load. rewrite Hw. cbn. now rewrite String.eqb_refl. }
  rewrite Hsaved in Hfile.
  generalize dependent (session cs (snd (save_data path w))). intros w2 Hfile.
  run_load. rewrite Hfile. unfold json_dump.
  rewrite (coerce_items_dump (_stock w) []) by exact Hu.
  eexists. split; reflexivity.
Qed.

(** *** How calls compose *)

Lemma add_item_returns (w : world) (name : string) (q : Z) :
  0 <= q ->
  add_item (PStr name) (PInt q) w =
  (Ok tt, World (dict_setitem (_stock w) name (dict_get_default (_stock w) name 0 + q))
                (files w) (writable w)
                (log w ++ [LogRecord INFO "%s: Added %d of %s"])).
Proof.
  intros Hq. run_method. cbn [as_int].
  apply Z.ltb_ge in Hq. now rewrite Hq.
Qed.

Lemma remove_item_returns (w : world) (name : string) (q c : Z) :
  0 <= q ->
  dict_get (_stock w) name = Some c ->
  remove_item (PStr name) (PInt q) w =
  (Ok tt,
   if c <=? q then
     World (dict_delitem (_stock w) name) (files w) (writable w)
           (log w ++ [LogRecord INFO "%s: Removed %d of %s (item deleted)"])
   else
     World (dict_setitem (_stock w) name (c - q)) (files w) (writable w)
           (log w ++ [LogRecord INFO "%s: Removed %d of %s"])).
Proof.
  intros Hq Hc. run_method. cbn [as_int].
  apply Z.ltb_ge in Hq. rewrite Hq, Hc. now destruct (c <=? q).
Qed.

(** Adding a quantity and removing it again gives back the mapping as it
    was, order included, provided the item was absent or held a positive
    quantity; both calls return. *)
Theorem add_then_remove_undoes (w : world) (item : string) (q : Z) :
  0 <= q ->
  (forall c, dict_get (_stock w) item = Some c -> 0 < c) ->
  exists w',
    (add_item (PStr item) (PInt q) ;; remove_item (PStr item) (PInt q)) w
    = (Ok tt, w')
    /\ _stock w' = _stock w.
Proof.
  intros Hq Hpos. unfold bind. rewrite (add_item_returns w item q Hq).
  rewrite (remove_item_returns _ item q
             (dict_get_default (_stock w) item 0 + q) Hq)
    by (cbn [_stock]; apply dict_get_setitem_same).
  eexists. split; [reflexivity|]. cbn [_stock].
  unfold dict_get_default.
  destruct (dict_get (_stock w) item) as [c|] eqn:Hc.
  - specialize (Hpos c eq_refl).
    destruct (Z.leb_spec (c + q) q); [lia|]. cbn [_stock].
    rewrite dict_setitem_twice. replace (c + q - q) with c by lia.
    now apply dict_setitem_same_value.
  - destruct (Z.leb_spec (0 + q) q); [|lia]. cbn [_stock].
    rewrite dict_delitem_setitem. now apply dict_delitem_absent.
Qed.

(** Two additions to an item leave the mapping that one addition of the
    sum leaves. *)
Theorem add_item_additive (w : world) (item : string) (a b : Z) :
  0 <= a -> 0 <= b ->
  exists w1 w2,
    (add_item (PStr item) (PInt a) ;; add_item (PStr item) (PInt b)) w
    = (Ok tt, w1)
    /\ add_item (PStr item) (PInt (a + b)) w = (Ok tt, w2)
    /\ _stock w1 = _stock w2.
Proof.
  intros Ha Hb. unfold bind.
  rewrite (add_item_returns w item a Ha), (add_item_returns _ item b Hb).
  rewrite (add_item_returns w item (a + b)) by lia.
  do 2 eexists. split; [reflexivity|]. split; [reflexivity|]. cbn [_stock].
  unfold dict_get_default. rewrite dict_get_setitem_same, dict_setitem_twice.
  destruct (dict_get (_stock w) item); f_equal; lia.
Qed.

(** Removing [a] and then [b] from an item that holds more than [a] leaves
    the mapping that removing [a + b] at once leaves. *)
Theorem remove_item_in_two_steps (w : world) (item : string) (c a b : Z) :
  dict_get (_stock w) item = Some c ->
  0 <= a < c -> 0 <= b ->
  exists w1 w2,
    (remove_item (PStr item) (PInt a) ;; remove_item (PStr item) (PInt b)) w
    = (Ok tt, w1)
    /\ remove_item (PStr item) (PInt (a + b)) w = (Ok tt, w2)
    /\ _stock w1 = _stock w2.
Proof.
  intros Hc Ha Hb. unfold bind.
  rewrite (remove_item_returns w item a c) by (auto; lia).
  rewrite (remove_item_returns w item (a + b) c) by (auto; lia).
  destruct (Z.leb_spec c a); [lia|].
  rewrite (remove_item_returns _ item b (c - a))
    by (auto; cbn [_stock]; apply dict_get_setitem_same).
  do 2 eexists. split; [reflexivity|]. split; [reflexivity|].
  destruct (Z.leb_spec (c - a) b); destruct (Z.leb_spec c (a + b)); try lia;
    cbn [_stock].
  - apply dict_delitem_setitem.
  - rewrite dict_setitem_twice. f_equal. lia.
Qed.

(** Raising the threshold only adds names: what [check_low_items] lists at
    a threshold it lists at any higher one, and all it ever lists are keys
    of the mapping. *)
Theorem check_low_items_monotone (w : world) (t1 t2 : Z) :
  t1 <= t2 ->
  exists l1 l2,
    check_low_items (PInt t1) w = (Ok l1, w)
    /\ check_low_items (PInt t2) w = (Ok l2, w)
    /\ incl l1 l2
    /\ incl l2 (dict_keys (_stock w)).
Proof.
  intros Ht. do 2 eexists. split; [reflexivity|]. split; [reflexivity|].
  rewrite !names_below_filter. split; intros name Hin;
    apply in_map_iff in Hin as ([k v] & Hk & Hin);
    apply filter_In in Hin as [Hin Hlt]; simpl in *; subst k.
  - apply in_map_iff. exists (name, v). split; auto.
    apply filter_In. split; auto. simpl. lia.
  - unfold dict_keys. apply in_map_iff. exists (name, v). auto.
Qed.

(** *** The entry point *)

(** [main] depends on the world through one fact, whether
    [inventory.json] can be written.  If it can, [main] returns, the ledger
    holds apple 7 and banana 2, the file holds the same, and ten INFO
    records were made; if it cannot, [main] raises [OSError] out of
    [save_data] with the same ledger and no file touched. *)
Theorem main_outcome (w : world) :
  (writable w "inventory.json" = true ->
   exists w',
     main w = (Ok tt, w')
     /\ _stock w' = [("apple", 7); ("banana", 2)]
     /\ files w' "inventory.json"
        = Some (Document (json_dump [("apple", 7); ("banana", 2)]))
     /\ log w' = log w ++ main_records)
  /\ (writable w "inventory.json" = false ->
      exists w',
        main w = (Raise OSError, w')
        /\ _stock w' = [("apple", 7); ("banana", 2)]
        /\ files w' = files w).
Proof.
  destruct w as [d f wr l]. cbn [writable files log].
  unfold main, configure_logging, __init__, print_report.
  split; intros Hw; run_load; cbn [as_int]; cbn; rewrite Hw; cbn;
    eexists; (split; [reflexivity|]); cbn; repeat split.
  repeat rewrite <- app_assoc. reflexivity.
Qed.

End Inventory.

(** ** The theorems at concrete ledgers *)

Lemma positive_ledger_invariant_witness :
  __init__ ascii_decimal demo_initial fresh_world
  = (Ok tt, World [("apple", 4)] no_files any_path [])
  /\ _stock (session ascii_decimal demo_calls
                     (World [("apple", 4)] no_files any_path []))
     = [("apple", 11); ("banana", 2)]
  /\ ((forall k v,
         In (k, v) (_stock (session ascii_decimal demo_calls
                                    (World [("apple", 4)] no_files any_path [])))
         -> 0 < v)
      /\ (forall item,
            dict_contains
              (_stock (session ascii_decimal demo_calls
                               (World [("apple", 4)] no_files any_path [])))
              item = true
            <-> 0 < dict_get_default
                      (_stock (session ascii_decimal demo_calls
                                       (World [("apple", 4)] no_files any_path [])))
                      item 0)).
Proof.
  split; [reflexivity|]. split; [reflexivity|].
  apply (positive_ledger_invariant ascii_decimal demo_initial demo_calls fresh_world);
    reflexivity.
Defined.

(** C1 as stated fails: [add_item("apple", 0)] on a new ledger returns and
    leaves apple in the mapping with quantity 0. *)
Lemma zero_quantity_entry :
  ~ (forall initial cs w0 w1 item,
        __init__ ascii_decimal initial w0 = (Ok tt, w1) ->
        (dict_contains (_stock (session ascii_decimal cs w1)) item = true
         <-> 0 < dict_get_default (_stock (session ascii_decimal cs w1)) item 0)).
Proof.
  intros H.
  specialize (H None [Add_item (PStr "apple") (PInt 0)] fresh_world fresh_world
                "apple" eq_refl).
  destruct H as [H _]. specialize (H eq_refl). cbn in H. lia.
Qed.

Lemma load_data_missing_file_witness :
  files fruit_world "inventory.json" = None
  /\ load_data ascii_decimal "inventory.json" fruit_world =
     (Ok tt, World (_stock fruit_world) (files fruit_world) (writable fruit_world)
                   (log fruit_world
                      ++ [LogRecord INFO
                            "No inventory file found at %s; starting fresh"])).
Proof.
  split; [reflexivity|].
  apply (load_data_missing_file ascii_decimal fruit_world "inventory.json").
  reflexivity.
Defined.

Lemma save_load_round_trip_witness :
  unique_keys (_stock fruit_world) = true
  /\ writable fruit_world "inventory.json" = true
  /\ files (World [("kiwi", 9)]
                  (files (snd (save_data "inventory.json" fruit_world)))
                  any_path [])
           "inventory.json"
     = files (snd (save_data "inventory.json" fruit_world)) "inventory.json"
  /\ exists w1 w2 w3,
      save_data "inventory.json" fruit_world = (Ok tt, w1)
      /\ __init__ ascii_decimal None
           (World [("kiwi", 9)]
                  (files (snd (save_data "inventory.json" fruit_world)))
                  any_path [])
         = (Ok tt, w2)
      /\ _stock w2 = []
      /\ load_data ascii_decimal "inventory.json" w2 = (Ok tt, w3)
      /\ _stock w3 = _stock fruit_world.
Proof.
  split; [reflexivity|]. split; [reflexivity|]. split; [reflexivity|].
  apply (save_load_round_trip ascii_decimal fruit_world _ "inventory.json");
    reflexivity.
Defined.

Lemma remove_item_present_witness :
  dict_get (_stock fruit_world) "banana" = Some 10
  /\ 0 <= 3
  /\ exists w',
      remove_item (PStr "banana") (PInt 3) fruit_world = (Ok tt, w')
      /\ (10 <= 3 ->
          _stock w' = dict_delitem (_stock fruit_world) "banana"
          /\ dict_contains (_stock w') "banana" = false
          /\ get_qty (PStr "banana") w' = (Ok 0, w'))
      /\ (3 < 10 ->
          _stock w' = dict_setitem (_stock fruit_world) "banana" (10 - 3)
          /\ dict_get (_stock w') "banana" = Some (10 - 3)
          /\ get_qty (PStr "banana") w' = (Ok (10 - 3), w')
          /\ 0 < 10 - 3).
Proof.
  split; [reflexivity|]. split; [lia|].
  apply (remove_item_present fruit_world "banana" 10 3); [reflexivity|lia].
Defined.

Lemma remove_item_absent_witness :
  dict_contains (_stock fruit_world) "kiwi" = false
  /\ as_int (PInt 1) = Some 1
  /\ 0 <= 1
  /\ remove_item (PStr "kiwi") (PInt 1) fruit_world =
     (Raise KeyError,
      World (_stock fruit_world) (files fruit_world) (writable fruit_world)
            (log fruit_world
               ++ [LogRecord WARNING "Attempt to remove non-existent item: %s"])).
Proof.
  split; [reflexivity|]. split; [reflexivity|]. split; [lia|].
  apply (remove_item_absent fruit_world "kiwi" (PInt 1) 1); [reflexivity..|lia].
Defined.

Lemma get_qty_running_balance_witness :
  _stock fresh_world = []
  /\ play demo_moves fresh_world = (Ok tt, snd (play demo_moves fresh_world))
  /\ get_qty (PStr "apple") (snd (play demo_moves fresh_world))
     = (Ok 7, snd (play demo_moves fresh_world))
  /\ (get_qty (PStr "apple") (snd (play demo_moves fresh_world))
      = (Ok (running_balance "apple" demo_moves 0),
         snd (play demo_moves fresh_world))
      /\ 0 <= running_balance "apple" demo_moves 0
      /\ (never_overdrawn "apple" demo_moves 0 = true ->
          running_balance "apple" demo_moves 0
          = total_added "apple" demo_moves - total_removed "apple" demo_moves)
      /\ (never_added "apple" demo_moves = true ->
          running_balance "apple" demo_moves 0 = 0)).
Proof.
  split; [reflexivity|]. split; [reflexivity|]. split; [reflexivity|].
  apply (get_qty_running_balance demo_moves fresh_world); reflexivity.
Defined.

(** C7 as stated fails: five apples in, ten asked out (the entry goes),
    three in: [get_qty] gives 3, the sums give 8 - 10. *)
Lemma overdrawn_then_restocked :
  ~ (forall ms w item,
        play ms fresh_world = (Ok tt, w) ->
        get_qty (PStr item) w
        = (Ok (Z.max 0 (total_added item ms - total_removed item ms)), w)).
Proof.
  intros H.
  specialize (H [Added "apple" 5; Removed "apple" 10; Added "apple" 3]
                _ "apple" eq_refl).
  cbv in H. discriminate.
Qed.

Lemma check_low_items_exact_witness :
  unique_keys (_stock fruit_world) = true
  /\ exists low,
      check_low_items (PInt 5) fruit_world = (Ok low, fruit_world)
      /\ low = map fst (filter (fun kv => snd kv <? 5) (_stock fruit_world))
      /\ (forall name,
            In name low <->
            exists qty, dict_get (_stock fruit_world) name = Some qty /\ qty < 5)
      /\ (forall name, dict_get (_stock fruit_world) name = Some 5 -> ~ In name low)
      /\ check_low_items (PInt 5) fruit_world = (Ok ["apple"], fruit_world).
Proof.
  split; [reflexivity|].
  apply (check_low_items_exact fruit_world 5). reflexivity.
Defined.

Lemma load_data_finite_floats_and_bools_witness :
  files float_world "inventory.json"
  = Some (Document (PDict [(KStr "apple", PFloat float_3_9);
                           (KStr "kiwi", PBool true)]))
  /\ _stock (snd (load_data ascii_decimal "inventory.json" float_world))
     = [("apple", 3); ("kiwi", 1)]
  /\ (load_data ascii_decimal "inventory.json" float_world =
      (Ok tt, World (rounded_mapping [(KStr "apple", PFloat float_3_9);
                                      (KStr "kiwi", PBool true)])
                    (files float_world) (writable float_world)
                    (log float_world ++ [LogRecord INFO "Inventory loaded from %s"]))
      /\ py_int ascii_decimal (PFloat float_3_9) = Ok 3
      /\ py_int ascii_decimal (PBool true) = Ok 1
      /\ py_int ascii_decimal (PBool false) = Ok 0).
Proof.
  split; [reflexivity|]. split; [reflexivity|].
  apply (load_data_finite_floats_and_bools ascii_decimal float_world "inventory.json");
    reflexivity.
Defined.

(** C10 as stated fails: NaN is a float that [int()] rejects with
    [ValueError], so the file is treated as holding invalid values and the
    mapping stays what it was. *)
Lemma nan_is_not_loaded :
  ~ (forall w path items,
        files w path = Some (Document (PDict items)) ->
        forallb (fun kv => float_or_bool (snd kv)) items = true ->
        exists w',
          load_data ascii_decimal path w = (Ok tt, w')
          /\ _stock w' = rounded_mapping items).
Proof.
  intros H.
  destruct (H nan_world "inventory.json" _ eq_refl eq_refl) as (w' & Hrun & Hnew).
  inversion Hrun; subst. discriminate.
Qed.

(** ** The further theorems at concrete ledgers *)

Lemma remove_item_frame_witness :
  remove_item (PStr "banana") (PInt 3) fruit_world
  = (Ok tt, snd (remove_item (PStr "banana") (PInt 3) fruit_world))
  /\ exists name,
      PStr "banana" = PStr name
      /\ (forall k, k <> name ->
            dict_get (_stock (snd (remove_item (PStr "banana") (PInt 3) fruit_world))) k
            = dict_get (_stock fruit_world) k)
      /\ files (snd (remove_item (PStr "banana") (PInt 3) fruit_world))
         = files fruit_world
      /\ dict_keys (_stock (snd (remove_item (PStr "banana") (PInt 3) fruit_world)))
         = (if dict_contains
                 (_stock (snd (remove_item (PStr "banana") (PInt 3) fruit_world)))
                 name
            then dict_keys (_stock fruit_world)
            else filter (fun k => negb (String.eqb k name))
                        (dict_keys (_stock fruit_world))).
Proof.
  split; [reflexivity|].
  apply (remove_item_frame fruit_world _ (PStr "banana") (PInt 3)). reflexivity.
Defined.

Lemma constructor_agrees_with_load_witness :
  files float_world "inventory.json"
  = Some (Document (PDict [(KStr "apple", PFloat float_3_9);
                           (KStr "kiwi", PBool true)]))
  /\ __init__ ascii_decimal
       (Some [(KStr "apple", PFloat float_3_9); (KStr "kiwi", PBool true)])
       fresh_world
     = (Ok tt, World [("apple", 3); ("kiwi", 1)] no_files any_path [])
  /\ ((forall w1,
         __init__ ascii_decimal
           (Some [(KStr "apple", PFloat float_3_9); (KStr "kiwi", PBool true)])
           fresh_world = (Ok tt, w1) ->
         exists w',
           load_data ascii_decimal "inventory.json" float_world = (Ok tt, w')
           /\ _stock w' = _stock w1)
      /\ (forall e w1,
            __init__ ascii_decimal
              (Some [(KStr "apple", PFloat float_3_9); (KStr "kiwi", PBool true)])
              fresh_world = (Raise e, w1) ->
            _stock (snd (load_data ascii_decimal "inventory.json" float_world))
            = _stock float_world)).
Proof.
  split; [reflexivity|]. split; [reflexivity|].
  apply (constructor_agrees_with_load ascii_decimal _ fresh_world float_world
           "inventory.json").
  reflexivity.
Defined.

Lemma constructor_last_value_wins_witness :
  __init__ ascii_decimal (Some clashing_items) fresh_world
  = (Ok tt, World [("1", 6); ("kiwi", 1)] no_files any_path [])
  /\ match last_binding clashing_items "1" with
     | Some v =>
         exists z, py_int ascii_decimal v = Ok z
                   /\ dict_get (_stock (World [("1", 6); ("kiwi", 1)]
                                              no_files any_path [])) "1" = Some z
     | None =>
         dict_get (_stock (World [("1", 6); ("kiwi", 1)] no_files any_path []))
                  "1" = None
     end.
Proof.
  split; [reflexivity|].
  apply (constructor_last_value_wins ascii_decimal clashing_items fresh_world).
  reflexivity.
Defined.

Lemma ledger_keys_unique_witness :
  __init__ ascii_decimal demo_initial fresh_world
  = (Ok tt, World [("apple", 4)] no_files any_path [])
  /\ unique_keys (_stock (session ascii_decimal demo_calls
                                  (World [("apple", 4)] no_files any_path [])))
     = true.
Proof.
  split; [reflexivity|].
  apply (ledger_keys_unique ascii_decimal demo_initial demo_calls fresh_world).
  reflexivity.
Defined.

Lemma no_negative_stock_without_load_witness :
  forallb (fun c => negb (is_load c))
          [Add_item (PStr "apple") (PInt 0); Remove_item (PStr "pear") (PInt 9);
           Add_item (PStr "pear") (PBool true); Add_item (PInt 3) (PInt (-2))]
  = true
  /\ forall k v,
      In (k, v)
         (_stock (session ascii_decimal
                    [Add_item (PStr "apple") (PInt 0);
                     Remove_item (PStr "pear") (PInt 9);
                     Add_item (PStr "pear") (PBool true);
                     Add_item (PInt 3) (PInt (-2))]
                    (snd (__init__ ascii_decimal None fruit_world))))
      -> 0 <= v.
Proof.
  split; [reflexivity|].
  apply (no_negative_stock_without_load ascii_decimal). reflexivity.
Defined.

Lemma files_written_by_save_only_witness :
  forallb (fun c => negb (saves_to "other.json" c)) demo_calls = true
  /\ files (session ascii_decimal demo_calls float_world) "other.json"
     = files float_world "other.json"
  /\ writable (session ascii_decimal demo_calls float_world)
     = writable float_world.
Proof.
  split; [reflexivity|].
  apply (files_written_by_save_only ascii_decimal demo_calls "other.json"
           float_world).
  reflexivity.
Defined.

Lemma load_restores_saved_witness :
  unique_keys (_stock fruit_world) = true
  /\ writable fruit_world "inventory.json" = true
  /\ exists w',
      load_data ascii_decimal "inventory.json"
        (session ascii_decimal
                 [Add_item (PStr "kiwi") (PInt 2);
                  Remove_item (PStr "apple") (PInt 3);
                  Save_data "other.json"]
                 (snd (save_data "inventory.json" fruit_world)))
      = (Ok tt, w')
      /\ _stock w' = _stock fruit_world.
Proof.
  split; [reflexivity|]. split; [reflexivity|].
  apply (load_restores_saved ascii_decimal fruit_world "inventory.json");
    reflexivity.
Defined.

Lemma add_then_remove_undoes_witness :
  0 <= 4
  /\ exists w',
      bind (add_item (PStr "kiwi") (PInt 4))
           (fun _ => remove_item (PStr "kiwi") (PInt 4)) fruit_world
      = (Ok tt, w')
      /\ _stock w' = _stock fruit_world.
Proof.
  split; [lia|].
  apply (add_then_remove_undoes fruit_world "kiwi" 4); [lia|].
  intros c H. discriminate H.
Defined.

Lemma add_item_additive_witness :
  0 <= 2 /\ 0 <= 5
  /\ exists w1 w2,
      bind (add_item (PStr "apple") (PInt 2))
           (fun _ => add_item (PStr "apple") (PInt 5)) fruit_world
      = (Ok tt, w1)
      /\ add_item (PStr "apple") (PInt (2 + 5)) fruit_world = (Ok tt, w2)
      /\ _stock w1 = _stock w2.
Proof.
  split; [lia|]. split; [lia|].
  apply (add_item_additive fruit_world "apple" 2 5); lia.
Defined.

Lemma remove_item_in_two_steps_witness :
  dict_get (_stock fruit_world) "banana" = Some 10
  /\ 0 <= 3 < 10 /\ 0 <= 4
  /\ exists w1 w2,
      bind (remove_item (PStr "banana") (PInt 3))
           (fun _ => remove_item (PStr "banana") (PInt 4)) fruit_world
      = (Ok tt, w1)
      /\ remove_item (PStr "banana") (PInt (3 + 4)) fruit_world = (Ok tt, w2)
      /\ _stock w1 = _stock w2.
Proof.
  split; [reflexivity|]. split; [lia|]. split; [lia|].
  apply (remove_item_in_two_steps fruit_world "banana" 10 3 4);
    [reflexivity|lia|lia].
Defined.

Lemma check_low_items_monotone_witness :
  5 <= 10
  /\ exists l1 l2,
      check_low_items (PInt 5) fruit_world = (Ok l1, fruit_world)
      /\ check_low_items (PInt 10) fruit_world = (Ok l2, fruit_world)
      /\ incl l1 l2
      /\ incl l2 (dict_keys (_stock fruit_world)).
Proof.
  split; [lia|]. apply (check_low_items_monotone fruit_world 5 10). lia.
Defined.

Lemma load_data_rejected_witness :
  files list_world "inventory.json" = Some (Document (PList [PInt 1; PInt 2]))
  /\ exists m,
      load_data ascii_decimal "inventory.json" list_world =
      (Ok tt, World (_stock list_world) (files list_world) (writable list_world)
                    (log list_world ++ [LogRecord ERROR m])).
Proof.
  split; [reflexivity|].
  apply (load_data_rejected ascii_decimal list_world "inventory.json"
           (Document (PList [PInt 1; PInt 2]))); [reflexivity|exact I].
Defined.

Lemma load_data_raise_changes_nothing_witness :
  load_data ascii_decimal "inventory.json" overflow_world
  = (Raise OverflowError, overflow_world)
  /\ overflow_world = overflow_world.
Proof.
  split; [reflexivity|].
  apply (load_data_raise_changes_nothing ascii_decimal overflow_world
           overflow_world "inventory.json" OverflowError).
  reflexivity.
Defined.
